(** * EasyChatbot: the chat client of [chat_bot/easy_chat.py]

    A shallow embedding of the module [easy_chat.py] and the properties of
    its request builder, response normaliser and message model.

    Conventions of the embedding.
    - A Python [str] is a Rocq [string]; a character is a code point in
      U+0000..U+00FF.  The library functions on strings ([str.strip],
      [str.lower], [str.split], [re.findall], [urllib.parse.unquote]) are
      written out for that range.
    - A Python value that travels through the JSON shaped parts of the
      program is a [pyval]; a [dict] is an association list in insertion
      order, keyed by strings.
    - A Python exception is a value of [exn]; code that can raise returns a
      [result].
    - The code changes the context of a message and its citations in
      place.  Here a statement that changes an object returns the object
      as it is afterwards, and the result is built from that; the data
      come from JSON, so no object is reached on two ways. *)

From Stdlib Require Import String Ascii List ZArith NArith Bool Lia.
From Stdlib Require Import DecimalString.
Import ListNotations.

Open Scope string_scope.
Open Scope list_scope.

Set Warnings "-register-all".

(* ================================================================== *)
(** * Strings: the library functions the module calls *)
(* ================================================================== *)

Module PyStr.

Definition code (c : ascii) : N := N_of_ascii c.

Definition in_range (lo hi : N) (c : ascii) : bool :=
  (lo <=? code c)%N && (code c <=? hi)%N.

(** [str.isspace] on one character: U+0009..U+000D, U+001C..U+0020,
    U+0085 and U+00A0. *)
Definition is_space (c : ascii) : bool :=
  in_range 9 13 c || in_range 28 32 c
  || (code c =? 133)%N || (code c =? 160)%N.

(** The characters that [str.lower] changes: A..Z and the capital
    letters U+00C0..U+00DE without the multiplication sign U+00D7. *)
Definition is_upper (c : ascii) : bool :=
  in_range 65 90 c || (in_range 192 222 c && negb (code c =? 215)%N).

Definition lower_char (c : ascii) : ascii :=
  if is_upper c then ascii_of_N (code c + 32) else c.

(** [s.lower()] *)
Fixpoint lower (s : string) : string :=
  match s with
  | EmptyString => EmptyString
  | String c s' => String (lower_char c) (lower s')
  end.

Fixpoint lstrip (s : string) : string :=
  match s with
  | EmptyString => EmptyString
  | String c s' => if is_space c then lstrip s' else s
  end.

Fixpoint rstrip (s : string) : string :=
  match s with
  | EmptyString => EmptyString
  | String c s' =>
      match rstrip s' with
      | EmptyString => if is_space c then EmptyString else String c EmptyString
      | r => String c r
      end
  end.

(** [s.strip()] *)
Definition strip (s : string) : string := rstrip (lstrip s).

(** [s.startswith(p)] *)
Definition startswith (s p : string) : bool := prefix p s.

(** [sub in s] for two strings. *)
Fixpoint contains (sub s : string) : bool :=
  prefix sub s ||
  match s with
  | EmptyString => false
  | String _ s' => contains sub s'
  end.

(** [s.split(sep)] for a separator of one character, which is what every
    call of the module passes. *)
Fixpoint split (sep : ascii) (s : string) : list string :=
  match s with
  | EmptyString => [EmptyString]
  | String c s' =>
      if Ascii.eqb c sep then EmptyString :: split sep s'
      else match split sep s' with
           | [] => [String c EmptyString]
           | h :: t => String c h :: t
           end
  end.

(** [sep.join(l)] *)
Definition join (sep : string) (l : list string) : string := String.concat sep l.

Fixpoint drop (n : nat) (s : string) : string :=
  match n, s with
  | O, _ => s
  | S _, EmptyString => EmptyString
  | S k, String _ s' => drop k s'
  end.

(** ** [re.findall(r'_pages_(\d+)', s)] *)

(** [\d] on a character below U+0100. *)
Definition is_digit (c : ascii) : bool := in_range 48 57 c.

(** The longest prefix of digits. *)
Fixpoint digits_prefix (s : string) : string :=
  match s with
  | EmptyString => EmptyString
  | String c s' => if is_digit c then String c (digits_prefix s') else EmptyString
  end.

Definition pages_marker : string := "_pages_".

(** A match of the pattern at the head of [s]: the marker and then one
    digit or more, as many as there are; the result is group 1. *)
Definition match_pages (s : string) : option string :=
  if prefix pages_marker s then
    match digits_prefix (drop 7 s) with
    | EmptyString => None
    | ds => Some ds
    end
  else None.

(** The scan of [findall]: the leftmost match, then on from its end.
    [skip] counts the characters of the last match still to pass. *)
Fixpoint findall_from (skip : nat) (s : string) : list string :=
  match s with
  | EmptyString => []
  | String _ s' =>
      match skip with
      | S k => findall_from k s'
      | O =>
          match match_pages s with
          | Some ds => ds :: findall_from (6 + String.length ds) s'
          | None => findall_from 0 s'
          end
      end
  end.

Definition re_findall_pages (s : string) : list string := findall_from 0 s.

(** ** [urllib.parse.unquote] *)

Definition hex_value (c : ascii) : option N :=
  if in_range 48 57 c then Some (code c - 48)%N
  else if in_range 65 70 c then Some (code c - 55)%N
  else if in_range 97 102 c then Some (code c - 87)%N
  else None.

(** One item of [string.split('%')] after the first: two hexadecimal
    digits give a byte, anything else keeps its percent sign. *)
Definition unquote_item (item : string) : string :=
  match item with
  | String h (String l rest) =>
      match hex_value h, hex_value l with
      | Some a, Some b => String (ascii_of_N (16 * a + b)) rest
      | _, _ => String "%" item
      end
  | _ => String "%" item
  end.

(** [_unquote_impl]: percent decoding of a run of ASCII characters to
    bytes. *)
Definition unquote_impl (s : string) : string :=
  match split "%" s with
  | [] => s
  | first :: items => first ++ String.concat "" (map unquote_item items)
  end.

Definition is_cont (c : ascii) : bool := in_range 128 191 c.

(** A decoded code point above U+00FF, and the replacement character
    U+FFFD that [errors='replace'] puts for a malformed sequence, lie
    outside the strings of this development; both are written as a
    question mark, which is what [.encode('latin-1', 'replace')] makes of
    the result of [unquote]. *)
Definition beyond : ascii := "?"%char.

Definition second_ok (lead c2 : ascii) : bool :=
  is_cont c2 &&
  (if (code lead =? 224)%N then (160 <=? code c2)%N
   else if (code lead =? 237)%N then (code c2 <=? 159)%N
   else if (code lead =? 240)%N then (144 <=? code c2)%N
   else if (code lead =? 244)%N then (code c2 <=? 143)%N
   else true).

(** [bytes.decode('utf-8', 'replace')]. *)
Fixpoint utf8_decode (bs : string) : string :=
  match bs with
  | EmptyString => EmptyString
  | String b t1 =>
      if (code b <? 128)%N then String b (utf8_decode t1)
      else if in_range 194 223 b then
        match t1 with
        | EmptyString => String beyond EmptyString
        | String c2 t2 =>
            if is_cont c2 then
              String (if (code b <=? 195)%N
                      then ascii_of_N ((code b - 192) * 64 + (code c2 - 128))
                      else beyond)
                     (utf8_decode t2)
            else String beyond (utf8_decode t1)
        end
      else if in_range 224 239 b then
        match t1 with
        | EmptyString => String beyond EmptyString
        | String c2 t2 =>
            if second_ok b c2 then
              match t2 with
              | EmptyString => String beyond EmptyString
              | String c3 t3 =>
                  if is_cont c3 then String beyond (utf8_decode t3)
                  else String beyond (utf8_decode t2)
              end
            else String beyond (utf8_decode t1)
        end
      else if in_range 240 244 b then
        match t1 with
        | EmptyString => String beyond EmptyString
        | String c2 t2 =>
            if second_ok b c2 then
              match t2 with
              | EmptyString => String beyond EmptyString
              | String c3 t3 =>
                  if is_cont c3 then
                    match t3 with
                    | EmptyString => String beyond EmptyString
                    | String c4 t4 =>
                        if is_cont c4 then String beyond (utf8_decode t4)
                        else String beyond (utf8_decode t3)
                    end
                  else String beyond (utf8_decode t2)
              end
            else String beyond (utf8_decode t1)
        end
      else String beyond (utf8_decode t1)
  end.

(** A run of ASCII characters is percent decoded and read as UTF-8; the
    characters between the runs are kept. [run] holds the current run. *)
Fixpoint unquote_parts (run s : string) : string :=
  match s with
  | EmptyString => utf8_decode (unquote_impl run)
  | String c s' =>
      if (code c <? 128)%N then unquote_parts (run ++ String c EmptyString) s'
      else utf8_decode (unquote_impl run) ++ String c (unquote_parts EmptyString s')
  end.

(** [unquote(s)] *)
Definition unquote (s : string) : string := unquote_parts EmptyString s.

(** ** [repr] of a string and of an integer *)

(** [str.isprintable] on one character. *)
Definition is_printable (c : ascii) : bool :=
  negb ((code c <? 32)%N || in_range 127 160 c || (code c =? 173)%N).

Definition hex_digit (n : N) : ascii :=
  if (n <? 10)%N then ascii_of_N (48 + n) else ascii_of_N (87 + n).

Definition repr_char (quote c : ascii) : string :=
  if Ascii.eqb c "\"%char then "\\"
  else if Ascii.eqb c quote then String "\" (String c EmptyString)
  else if (code c =? 9)%N then "\t"
  else if (code c =? 10)%N then "\n"
  else if (code c =? 13)%N then "\r"
  else if is_printable c then String c EmptyString
  else String "\" (String "x" (String (hex_digit (code c / 16))
                                 (String (hex_digit (code c mod 16)) EmptyString))).

Fixpoint repr_chars (quote : ascii) (s : string) : string :=
  match s with
  | EmptyString => EmptyString
  | String c s' => repr_char quote c ++ repr_chars quote s'
  end.

Definition apostrophe : ascii := "'"%char.
Definition dquote : ascii := ascii_of_N 34.

Fixpoint has_char (c : ascii) (s : string) : bool :=
  match s with
  | EmptyString => false
  | String d s' => Ascii.eqb c d || has_char c s'
  end.

(** [repr(s)]: single quotes, unless the text has one and no double
    quote. *)
Definition repr_str (s : string) : string :=
  let quote := if has_char apostrophe s && negb (has_char dquote s)
               then dquote else apostrophe in
  String quote (repr_chars quote s ++ String quote EmptyString).

(** [str(z)] of an integer. *)
Definition str_int (z : Z) : string := NilZero.string_of_int (Z.to_int z).

(** ** Properties of strings that the statements use *)

Fixpoint all_chars (f : ascii -> bool) (s : string) : bool :=
  match s with
  | EmptyString => true
  | String c s' => f c && all_chars f s'
  end.

Definition starts_with_digit (s : string) : bool :=
  match s with
  | String c _ => is_digit c
  | EmptyString => false
  end.

Definition starts_nonspace (s : string) : bool :=
  match s with
  | String c _ => negb (is_space c)
  | EmptyString => false
  end.

Fixpoint ends_nonspace (s : string) : bool :=
  match s with
  | EmptyString => false
  | String c EmptyString => negb (is_space c)
  | String _ s' => ends_nonspace s'
  end.

End PyStr.

(* ================================================================== *)
(** * Values, exceptions and the operations of the language *)
(* ================================================================== *)

(** The exceptions that the code of the module can meet. *)
Inductive exn : Type :=
| AttributeError
| KeyError (key : string)
| TypeError
| IndexError
| ValueError (msg : string).

Inductive result (A : Type) : Type :=
| Ok (a : A)
| Raise (e : exn).

Arguments Ok {A} a.
Arguments Raise {A} e.

Definition bind {A B : Type} (r : result A) (k : A -> result B) : result B :=
  match r with
  | Ok a => k a
  | Raise e => Raise e
  end.

Declare Scope py_scope.
Delimit Scope py_scope with py.
Notation "x <- r ;; k" := (bind r (fun x => k))
  (at level 61, r at next level, right associativity) : py_scope.
Open Scope py_scope.

(** [try: r except: pass], for a statement whose effect is the value it
    leaves: [a] stays when [r] raises. *)
Definition try_except_pass {A : Type} (a : A) (r : result A) : A :=
  match r with
  | Ok a' => a'
  | Raise _ => a
  end.

(** The values of Python that JSON data is made of.  A float is held as
    the text [repr] gives for it, which determines it. *)
Inductive pyval : Type :=
| PNone
| PBool (b : bool)
| PInt (z : Z)
| PFloat (repr : string)
| PStr (s : string)
| PList (l : list pyval)
| PDict (d : list (string * pyval)).

Definition dict : Type := list (string * pyval).

(** ** Dictionaries *)

Fixpoint dict_get (k : string) (d : dict) : option pyval :=
  match d with
  | [] => None
  | (k', v) :: d' => if String.eqb k k' then Some v else dict_get k d'
  end.

(** [d[k] = v]: the value of an old key is replaced where it stands, a new
    key goes to the end. *)
Fixpoint dict_set (k : string) (v : pyval) (d : dict) : dict :=
  match d with
  | [] => [(k, v)]
  | (k', v') :: d' =>
      if String.eqb k k' then (k, v) :: d' else (k', v') :: dict_set k v d'
  end.

Definition dict_has (k : string) (d : dict) : bool :=
  match dict_get k d with
  | Some _ => true
  | None => false
  end.

(** ** Operators *)

Definition is_str_eq (x : string) (v : pyval) : bool :=
  match v with
  | PStr s => String.eqb x s
  | _ => false
  end.

(** [x in v] for a string [x]. *)
Definition py_contains (x : string) (v : pyval) : result bool :=
  match v with
  | PDict d => Ok (dict_has x d)
  | PList l => Ok (existsb (is_str_eq x) l)
  | PStr s => Ok (PyStr.contains x s)
  | _ => Raise TypeError
  end.

(** [v[k]] for a string [k]. *)
Definition py_getitem (v : pyval) (k : string) : result pyval :=
  match v with
  | PDict d =>
      match dict_get k d with
      | Some x => Ok x
      | None => Raise (KeyError k)
      end
  | _ => Raise TypeError
  end.

(** [v[k] = x] for a string [k]; the result is the object afterwards. *)
Definition py_setitem (v : pyval) (k : string) (x : pyval) : result pyval :=
  match v with
  | PDict d => Ok (PDict (dict_set k x d))
  | _ => Raise TypeError
  end.

(** [l[i]] on a list. *)
Definition index {A : Type} (l : list A) (i : nat) : result A :=
  match nth_error l i with
  | Some a => Ok a
  | None => Raise IndexError
  end.

Definition isinstance_str (v : pyval) : bool :=
  match v with PStr _ => true | _ => false end.

Definition isinstance_list (v : pyval) : bool :=
  match v with PList _ => true | _ => false end.

(** The items that [for x in v] runs through. *)
Definition py_iter (v : pyval) : result (list pyval) :=
  match v with
  | PList l => Ok l
  | PDict d => Ok (map (fun kv => PStr (fst kv)) d)
  | PStr s => Ok (map (fun c => PStr (String c EmptyString)) (list_ascii_of_string s))
  | _ => Raise TypeError
  end.

(** Methods of [str], called on a value that may be something else. *)
Definition str_lower (v : pyval) : result string :=
  match v with
  | PStr s => Ok (PyStr.lower s)
  | _ => Raise AttributeError
  end.

Definition str_split (sep : ascii) (v : pyval) : result (list string) :=
  match v with
  | PStr s => Ok (PyStr.split sep s)
  | _ => Raise AttributeError
  end.

(** [re.findall(r'_pages_(\d+)', v)] *)
Definition re_findall (v : pyval) : result pyval :=
  match v with
  | PStr s => Ok (PList (map PStr (PyStr.re_findall_pages s)))
  | _ => Raise TypeError
  end.

(** [repr(v)] and [str(v)] *)
Fixpoint py_repr (v : pyval) : string :=
  match v with
  | PNone => "None"
  | PBool true => "True"
  | PBool false => "False"
  | PInt z => PyStr.str_int z
  | PFloat r => r
  | PStr s => PyStr.repr_str s
  | PList l => ("[" ++ PyStr.join ", " (map py_repr l) ++ "]")%string
  | PDict d =>
      ("{" ++ PyStr.join ", "
                (map (fun kv => let '(k, x) := kv in
                                PyStr.repr_str k ++ ": " ++ py_repr x) d)
           ++ "}")%string
  end.

Definition py_str (v : pyval) : string :=
  match v with
  | PStr s => s
  | _ => py_repr v
  end.

(** A comprehension [[f(x) for x in l]] whose [f] can raise. *)
Fixpoint comprehension {A B : Type} (f : A -> result B) (l : list A)
  : result (list B) :=
  match l with
  | [] => Ok []
  | a :: l' => b <- f a ;; bs <- comprehension f l' ;; Ok (b :: bs)
  end.

(** A [for] loop over [l] whose body works on a state and can raise. *)
Fixpoint for_each {A S : Type} (body : A -> S -> result S) (l : list A) (s : S)
  : result S :=
  match l with
  | [] => Ok s
  | a :: l' => s' <- body a s ;; for_each body l' s'
  end.

(** ** Statements on one object, as in a [try] block

    The block of statements works on the object [citation]; a statement
    that raises ends the block and leaves the object as the statements
    before it made it. *)
Module Block.

Definition M (A : Type) : Type := pyval -> result A * pyval.

Definition ret {A : Type} (a : A) : M A := fun st => (Ok a, st).

Definition bind {A B : Type} (m : M A) (k : A -> M B) : M B :=
  fun st =>
    match m st with
    | (Ok a, st') => k a st'
    | (Raise e, st') => (Raise e, st')
    end.

(** An expression that does not touch the object. *)
Definition lift {A : Type} (r : result A) : M A := fun st => (r, st).

(** [obj[k]] *)
Definition item (k : string) : M pyval := fun st => (py_getitem st k, st).

(** [obj[k] = v] *)
Definition assign (k : string) (v : pyval) : M unit :=
  fun st =>
    match py_setitem st k v with
    | Ok st' => (Ok tt, st')
    | Raise e => (Raise e, st)
    end.

(** [try: m except: pass] *)
Definition try_pass (m : M unit) (st : pyval) : pyval := snd (m st).

End Block.

Declare Scope block_scope.
Delimit Scope block_scope with block.
Notation "x <- m ;; k" := (Block.bind m (fun x => k))
  (at level 61, m at next level, right associativity) : block_scope.
Notation "m ;;; k" := (Block.bind m (fun _ => k))
  (at level 61, right associativity) : block_scope.

(* ================================================================== *)
(** * The completion object that the transport returns *)
(* ================================================================== *)

(** The attributes of [openai.types.chat.ChatCompletion] that
    [get_json_serializable_data] reads.  [usage] may be [None]; [end_turn]
    and [context] are no declared fields of the message, the service adds
    them, so each of them may be missing ([None] here) and reading it then
    raises [AttributeError]. *)
Module OpenAI.

Record CompletionUsage : Type := {
  completion_tokens : pyval;
  prompt_tokens : pyval;
  total_tokens : pyval
}.

Record ChatCompletionMessage : Type := {
  refusal : pyval;
  role : pyval;
  content : pyval;
  end_turn : option pyval;
  context : option pyval
}.

Record Choice : Type := {
  finish_reason : pyval;
  index : pyval;
  message : ChatCompletionMessage
}.

Record ChatCompletion : Type := {
  choices : list Choice;
  created : pyval;
  id : pyval;
  model : pyval;
  object : pyval;
  system_fingerprint : pyval;
  usage : option CompletionUsage
}.

(** Reading an attribute that may be missing, or an attribute of an
    object that may be [None]. *)
Definition attr {A : Type} (o : option A) : result A :=
  match o with
  | Some a => Ok a
  | None => Raise AttributeError
  end.

End OpenAI.

(* ================================================================== *)
(** * [get_json_serializable_data] *)
(* ================================================================== *)

Section Normalizer.

(** [json.loads] on a string: the value, or [None] when it raises. *)
Variable json_loads : string -> option pyval.

Definition py_json_loads (v : pyval) : result pyval :=
  match v with
  | PStr s =>
      match json_loads s with
      | Some x => Ok x
      | None => Raise (ValueError "JSONDecodeError")
      end
  | _ => Raise TypeError
  end.

(** Lines 50 to 54, on the object [c["message"]["context"]]. *)
Definition parse_intent (ctx : pyval) : result pyval :=
  has <- py_contains "intent" ctx ;;
  is_str <- (if has : bool
             then v <- py_getitem ctx "intent" ;; Ok (isinstance_str v)
             else Ok false) ;;
  if is_str : bool then
    Ok (try_except_pass ctx
          (v <- py_getitem ctx "intent" ;;
           x <- py_json_loads v ;;
           py_setitem ctx "intent" x))
  else Ok ctx.

(** Lines 59 to 65: the statements inside [try], on the object
    [citation]. *)
Definition citation_block : Block.M unit :=
  (fp <- Block.item "filepath" ;;
   pages <- Block.lift (re_findall fp) ;;
   Block.assign "pages" pages ;;;
   url <- Block.item "url" ;;
   low <- Block.lift (str_lower url) ;;
   if PyStr.startswith low "http" then
     url <- Block.item "url" ;;
     urlParts <- Block.lift (str_split "/" url) ;;
     if Nat.leb 4 (List.length urlParts) then
       host <- Block.lift (index urlParts 2) ;;
       name <- Block.lift (index (PyStr.split "." host) 0) ;;
       Block.assign "storageaccount_name" (PStr name) ;;;
       container <- Block.lift (index urlParts 3) ;;
       Block.assign "storageaccount_container" (PStr container) ;;;
       before_query <-
         Block.lift (index (PyStr.split "?" (PyStr.join "/" (skipn 4 urlParts))) 0) ;;
       before_fragment <- Block.lift (index (PyStr.split "#" before_query) 0) ;;
       Block.assign "storageaccount_blob" (PStr (PyStr.unquote before_fragment))
     else Block.ret tt
   else Block.ret tt)%block.

(** Lines 58 to 67: [try: ... except: pass] on one citation. *)
Definition parse_citation (citation : pyval) : pyval :=
  Block.try_pass citation_block citation.

(** Lines 56 to 67, on the object [c["message"]["context"]]. *)
Definition parse_citations (ctx : pyval) : result pyval :=
  has <- py_contains "citations" ctx ;;
  is_list <- (if has : bool
              then v <- py_getitem ctx "citations" ;; Ok (isinstance_list v)
              else Ok false) ;;
  if is_list : bool then
    citations <- py_getitem ctx "citations" ;;
    items <- py_iter citations ;;
    py_setitem ctx "citations" (PList (map parse_citation items))
  else Ok ctx.

(** The body of the loop over [completion.choices], up to the value of
    [c] that is appended.  [c["message"]["context"]] is the object
    [choice.message.context]; lines 50 to 67 work on it, and [c] holds
    what they leave. *)
Definition choice_entry (choice : OpenAI.Choice) : result pyval :=
  let m := OpenAI.message choice in
  end_turn <- OpenAI.attr (OpenAI.end_turn m) ;;
  context <- OpenAI.attr (OpenAI.context m) ;;
  context <- parse_intent context ;;
  context <- parse_citations context ;;
  Ok (PDict [("finish_reason", OpenAI.finish_reason choice);
             ("index", OpenAI.index choice);
             ("message",
               PDict [("refusal", OpenAI.refusal m);
                      ("role", OpenAI.role m);
                      ("content", OpenAI.content m);
                      ("end_turn", end_turn);
                      ("context", context)])]).

(** [data["choices"].append(c)] *)
Definition append_choice (c : pyval) (data : pyval) : result pyval :=
  l <- py_getitem data "choices" ;;
  match l with
  | PList cs => py_setitem data "choices" (PList (cs ++ [c]))
  | _ => Raise AttributeError
  end.

Definition get_json_serializable_data (completion : OpenAI.ChatCompletion)
  : result pyval :=
  u <- OpenAI.attr (OpenAI.usage completion) ;;
  let data :=
    PDict [("choices", PList []);
           ("created", OpenAI.created completion);
           ("id", OpenAI.id completion);
           ("model", OpenAI.model completion);
           ("object", OpenAI.object completion);
           ("system_fingerprint", OpenAI.system_fingerprint completion);
           ("usage",
             PDict [("completion_tokens", OpenAI.completion_tokens u);
                    ("prompt_tokens", OpenAI.prompt_tokens u);
                    ("total_tokens", OpenAI.total_tokens u)])] in
  for_each (fun choice data => c <- choice_entry choice ;; append_choice c data)
           (OpenAI.choices completion) data.

End Normalizer.

(* ================================================================== *)
(** * [EasyChatMessage] *)
(* ================================================================== *)

Record EasyChatMessage : Type := {
  role : string;
  content : pyval
}.

(** The error of a role that is none of the three. *)
Definition InvalidRole : exn :=
  ValueError "role must be 'system', 'user' or 'assistant'".

Definition roles : list string := ["system"; "user"; "assistant"].

(** [EasyChatMessage.__init__] *)
Definition EasyChatMessage_init (role content : pyval) : result EasyChatMessage :=
  let role := PyStr.lower (PyStr.strip (py_str role)) in
  if negb (existsb (String.eqb role) roles) then Raise InvalidRole
  else Ok {| role := role; content := content |}.

(* ================================================================== *)
(** * [EasyChatClient] *)
(* ================================================================== *)

(** What the module tells [AzureOpenAI] when it builds the client. *)
Inductive credential : Type :=
| azure_ad_token_provider (scope : string)
| api_key (key : string).

Record AzureOpenAI : Type := {
  azure_endpoint : string;
  azure_credential : credential;
  api_version : string
}.

Record EasyChatClient : Type := {
  _open_ai_client : AzureOpenAI;
  _open_ai_deployment_name : string;
  _open_ai_embedding_deployment_name : string;
  _azure_search_api_base : string;
  _azure_search_api_key : string;
  _azure_search_index_name : string;
  _semantic_configuration : string;
  _filter : string
}.

(** [x if x is not None else os.getenv(name)] *)
Definition or_getenv (getenv : string -> option string)
  (x : option string) (name : string) : option string :=
  match x with
  | Some _ => x
  | None => getenv name
  end.

(** An optional setting with a default for [None] and for [""]. *)
Definition or_default (x : option string) (default : string) : string :=
  match x with
  | None => default
  | Some s => if String.eqb s "" then default else s
  end.

(** [EasyChatClient.__init__]; [getenv] is [os.getenv]. *)
Definition EasyChatClient_init (getenv : string -> option string)
  (open_ai_client : option AzureOpenAI)
  (open_ai_deployment_name open_ai_embedding_deployment_name
     azure_search_api_base azure_search_index_name azure_search_api_key
     semantic_configuration : option string)
  : result EasyChatClient :=
  client <-
    match open_ai_client with
    | Some client => Ok client
    | None =>
        match getenv "OPENAI_API_BASE" with
        | None => Raise (ValueError "OPENAI_API_BASE is required")
        | Some base =>
            if String.eqb base "" then Raise (ValueError "OPENAI_API_BASE is required")
            else
              match getenv "OPENAI_API_KEY" with
              | None =>
                  Ok {| azure_endpoint := base;
                        azure_credential :=
                          azure_ad_token_provider
                            "https://cognitiveservices.azure.com/.default";
                        api_version := "2024-02-01" |}
              | Some key =>
                  Ok {| azure_endpoint := base;
                        azure_credential := api_key key;
                        api_version := "2024-02-01" |}
              end
        end
    end ;;
  let azure_search_api_key :=
    match or_getenv getenv azure_search_api_key "AZURESEARCH_API_KEY" with
    | None => ""
    | Some key => key
    end in
  let azure_search_api_base :=
    or_getenv getenv azure_search_api_base "AZURESEARCH_API_BASE" in
  match azure_search_api_base with
  | None => Raise (ValueError "AZURESEARCH_API_BASE is required")
  | Some azure_search_api_base =>
      if String.eqb azure_search_api_base ""
      then Raise (ValueError "AZURESEARCH_API_BASE is required")
      else
        let azure_search_index_name :=
          or_default (or_getenv getenv azure_search_index_name "AZURESEARCH_INDEX_NAME")
                     "documents" in
        let open_ai_deployment_name :=
          or_default (or_getenv getenv open_ai_deployment_name "OPENAI_DEPLOYMENT_NAME")
                     "gpt-4o" in
        let open_ai_embedding_deployment_name :=
          or_default (or_getenv getenv open_ai_embedding_deployment_name
                                "OPENAI_EMBEDDING_DEPLOYMENT_NAME")
                     "text-embedding-ada-002" in
        let semantic_configuration :=
          or_default semantic_configuration
                     (azure_search_index_name ++ "-semantic-configuration") in
        Ok {| _open_ai_client := client;
              _open_ai_deployment_name := open_ai_deployment_name;
              _open_ai_embedding_deployment_name := open_ai_embedding_deployment_name;
              _azure_search_api_base := azure_search_api_base;
              _azure_search_api_key := azure_search_api_key;
              _azure_search_index_name := azure_search_index_name;
              _semantic_configuration := semantic_configuration;
              _filter := "" |}
  end.

(** [setSearchFilter]: the client afterwards. *)
Definition setSearchFilter (self : EasyChatClient) (filter : pyval) : EasyChatClient :=
  {| _open_ai_client := _open_ai_client self;
     _open_ai_deployment_name := _open_ai_deployment_name self;
     _open_ai_embedding_deployment_name := _open_ai_embedding_deployment_name self;
     _azure_search_api_base := _azure_search_api_base self;
     _azure_search_api_key := _azure_search_api_key self;
     _azure_search_index_name := _azure_search_index_name self;
     _semantic_configuration := _semantic_configuration self;
     _filter := py_str filter |}.

Definition getSearchFilter (self : EasyChatClient) : string := _filter self.

(** ** [chat]: the request *)

(** Lines 184 to 215: the value of [dataSource["parameters"]] when the
    request is sent. *)
Definition dataSource_parameters (self : EasyChatClient) : dict :=
  let parameters :=
    [("endpoint", PStr (_azure_search_api_base self));
     ("index_name", PStr (_azure_search_index_name self));
     ("top_n_documents", PInt 5);
     ("role_information",
       PStr "You must generate citation based on the retrieved information.");
     ("fields_mapping",
       PDict [("filepath_field", PStr "chunk_id");
              ("url_field", PStr "metadata_storage_path")]);
     ("embedding_dependency",
       PDict [("type", PStr "deployment_name");
              ("deployment_name", PStr (_open_ai_embedding_deployment_name self))]);
     ("query_type", PStr "vector_semantic_hybrid");
     ("semantic_configuration", PStr (_semantic_configuration self))] in
  let parameters :=
    if String.eqb (_azure_search_api_key self) "" then
      dict_set "authentication"
        (PDict [("type", PStr "system_assigned_managed_identity")]) parameters
    else
      dict_set "authentication"
        (PDict [("type", PStr "api_key");
                ("api_key", PStr (_azure_search_api_key self))]) parameters in
  if negb (String.eqb (_filter self) "") then
    dict_set "filter" (PStr (py_str (PStr (_filter self)))) parameters
  else parameters.

Definition dataSource (self : EasyChatClient) : pyval :=
  PDict [("type", PStr "azure_search");
         ("parameters", PDict (dataSource_parameters self))].

(** The keyword arguments of [chat.completions.create]. *)
Record Request : Type := {
  req_model : string;
  req_messages : list pyval;
  req_temperature : pyval;
  req_extra_body : pyval
}.

Definition chat_request (self : EasyChatClient) (messages : list EasyChatMessage)
  : Request :=
  {| req_model := _open_ai_deployment_name self;
     req_messages :=
       map (fun message => PDict [("role", PStr (role message));
                                   ("content", content message)]) messages;
     req_temperature := PFloat "0.2";
     req_extra_body := PDict [("data_sources", PList [dataSource self])] |}.

Section Chat.

Variable json_loads : string -> option pyval.

(** [self._open_ai_client.chat.completions.create]: the transport, which
    returns a completion or raises. *)
Variable create : AzureOpenAI -> Request -> result OpenAI.ChatCompletion.

(** [chat]: what it returns or raises, and the client afterwards. *)
Definition chat (self : EasyChatClient) (messages : list EasyChatMessage)
  : result pyval * EasyChatClient :=
  (completion <- create (_open_ai_client self) (chat_request self messages) ;;
   get_json_serializable_data json_loads completion,
   self).

End Chat.

(* ================================================================== *)
(** * [dict_to_chat_messages] *)
(* ================================================================== *)

Definition dict_to_chat_messages (data : dict) : result (list EasyChatMessage) :=
  if dict_has "messages" data then
    messages <- py_getitem (PDict data) "messages" ;;
    items <- py_iter messages ;;
    comprehension
      (fun message =>
         role <- py_getitem message "role" ;;
         content <- py_getitem message "content" ;;
         EasyChatMessage_init role content)
      items
  else Ok [].

(* ================================================================== *)
(** * The notions that the statements speak of *)
(* ================================================================== *)

(** ** One citation *)

(** Line 59, right hand side: [re.findall(..., citation["filepath"])]. *)
Definition page_step (citation : pyval) : result pyval :=
  fp <- py_getitem citation "filepath" ;; re_findall fp.

(** Line 60, the condition up to [.lower()]. *)
Definition url_step (citation : pyval) : result string :=
  url <- py_getitem citation "url" ;; str_lower url.

(** The three values that lines 61 to 65 derive from a url, when they do. *)
Definition storage_fields_of (url : string) : option (string * string * string) :=
  if PyStr.startswith (PyStr.lower url) "http" then
    let urlParts := PyStr.split "/" url in
    if Nat.leb 4 (List.length urlParts) then
      Some (hd EmptyString (PyStr.split "." (nth 2 urlParts EmptyString)),
            nth 3 urlParts EmptyString,
            PyStr.unquote
              (hd EmptyString
                 (PyStr.split "#"
                    (hd EmptyString
                       (PyStr.split "?" (PyStr.join "/" (skipn 4 urlParts)))))))
    else None
  else None.

Definition with_storage_fields (fields : option (string * string * string))
  (d : dict) : dict :=
  match fields with
  | Some (name, container, blob) =>
      dict_set "storageaccount_blob" (PStr blob)
        (dict_set "storageaccount_container" (PStr container)
           (dict_set "storageaccount_name" (PStr name) d))
  | None => d
  end.

Definition storage_keys : list string :=
  ["storageaccount_name"; "storageaccount_container"; "storageaccount_blob"].

(** The field [k] of a citation, if it is a dictionary that has one. *)
Definition field (k : string) (citation : pyval) : option pyval :=
  match citation with
  | PDict d => dict_get k d
  | _ => None
  end.

(** The [try] block adds no storage field to [citation]. *)
Definition adds_no_storage_field (citation : pyval) : Prop :=
  forall k, In k storage_keys ->
            field k (parse_citation citation) = field k citation.

(** The reading of the specification in which the two parts of a citation
    are parsed apart: whenever the url of a citation gives storage fields,
    the citation gets them, also when the page step has raised. *)
Definition fields_parsed_apart : Prop :=
  forall citation url name container blob e,
    page_step citation = Raise e ->
    field "url" citation = Some (PStr url) ->
    storage_fields_of url = Some (name, container, blob) ->
    field "storageaccount_name" (parse_citation citation) = Some (PStr name).

(** ** The context of a choice and the result *)

Section Shapes.

Variable json_loads : string -> option pyval.

(** What lines 50 to 54 leave of a context that is a dictionary. *)
Definition intent_parsed (d : dict) : dict :=
  match dict_get "intent" d with
  | Some (PStr s) =>
      match json_loads s with
      | Some x => dict_set "intent" x d
      | None => d
      end
  | _ => d
  end.

(** What lines 56 to 67 leave of a context that is a dictionary. *)
Definition citations_parsed (d : dict) : dict :=
  match dict_get "citations" d with
  | Some (PList l) => dict_set "citations" (PList (map parse_citation l)) d
  | _ => d
  end.

(** The entry of a choice whose message has [end_turn] and a dictionary as
    [context]. *)
Definition entry_of (choice : OpenAI.Choice) (end_turn : pyval) (d : dict) : pyval :=
  let m := OpenAI.message choice in
  PDict [("finish_reason", OpenAI.finish_reason choice);
         ("index", OpenAI.index choice);
         ("message",
           PDict [("refusal", OpenAI.refusal m);
                  ("role", OpenAI.role m);
                  ("content", OpenAI.content m);
                  ("end_turn", end_turn);
                  ("context", PDict (citations_parsed (intent_parsed d)))])].

(** The top level fields of the result. *)
Definition data_of (completion : OpenAI.ChatCompletion) (u : OpenAI.CompletionUsage)
  (entries : list pyval) : pyval :=
  PDict [("choices", PList entries);
         ("created", OpenAI.created completion);
         ("id", OpenAI.id completion);
         ("model", OpenAI.model completion);
         ("object", OpenAI.object completion);
         ("system_fingerprint", OpenAI.system_fingerprint completion);
         ("usage",
           PDict [("completion_tokens", OpenAI.completion_tokens u);
                  ("prompt_tokens", OpenAI.prompt_tokens u);
                  ("total_tokens", OpenAI.total_tokens u)])].

(** [entry] is the entry of [choice]: the fields of the choice and of its
    message as they are, and the context after both parsing steps. *)
Definition is_entry_of (choice : OpenAI.Choice) (entry : pyval) : Prop :=
  exists end_turn d,
    OpenAI.end_turn (OpenAI.message choice) = Some end_turn
    /\ OpenAI.context (OpenAI.message choice) = Some (PDict d)
    /\ entry = entry_of choice end_turn d.

(** A completion that the normaliser takes without an error: [usage] is
    there, and every message has [end_turn] and a dictionary as [context]. *)
Definition choice_has_context (choice : OpenAI.Choice) : bool :=
  match OpenAI.end_turn (OpenAI.message choice), OpenAI.context (OpenAI.message choice) with
  | Some _, Some (PDict _) => true
  | _, _ => false
  end.

Definition has_contexts (completion : OpenAI.ChatCompletion) : bool :=
  match OpenAI.usage completion with
  | Some _ => forallb choice_has_context (OpenAI.choices completion)
  | None => false
  end.

End Shapes.

(** ** Places in the result *)

(** One step into a value: the key of a dictionary or the position in a
    list. *)
Inductive key : Type :=
| K (k : string)
| I (i : nat).

(** The value at the end of a path of subscripts, as in
    [data["choices"][0]["message"]]. *)
Fixpoint at_path (p : list key) (v : pyval) : option pyval :=
  match p with
  | [] => Some v
  | K k :: p' =>
      match v with
      | PDict d =>
          match dict_get k d with
          | Some x => at_path p' x
          | None => None
          end
      | _ => None
      end
  | I i :: p' =>
      match v with
      | PList l =>
          match nth_error l i with
          | Some x => at_path p' x
          | None => None
          end
      | _ => None
      end
  end.

(** ** Roles, entries and the blocks of the request *)

(** The role that [EasyChatMessage] stores for the argument [role]. *)
Definition canonical_role (role : pyval) : string :=
  PyStr.lower (PyStr.strip (py_str role)).

Definition valid_role (role : pyval) : bool :=
  existsb (String.eqb (canonical_role role)) roles.

(** The role and the content of an entry that is a dictionary with both. *)
Definition entry_fields (entry : pyval) : option (pyval * pyval) :=
  match entry with
  | PDict e =>
      match dict_get "role" e, dict_get "content" e with
      | Some r, Some c => Some (r, c)
      | _, _ => None
      end
  | _ => None
  end.

Definition message_of (rc : pyval * pyval) : EasyChatMessage :=
  {| role := canonical_role (fst rc); content := snd rc |}.

Definition managed_identity : pyval :=
  PDict [("type", PStr "system_assigned_managed_identity")].

Definition api_key_authentication (key : string) : pyval :=
  PDict [("type", PStr "api_key"); ("api_key", PStr key)].

(** ** The pattern of the pages *)

Module Pages.

Import PyStr.

(** The pattern as it reads: [s] is the text "_pages_", then the digits
    [ds], one at least and as many as follow, then [rest]. *)
Inductive match_at_head : string -> string -> string -> Prop :=
| match_head (ds rest : string) :
    ds <> EmptyString ->
    all_chars is_digit ds = true ->
    starts_with_digit rest = false ->
    match_at_head (pages_marker ++ ds ++ rest) ds rest.

(** The list of the groups of all matches that do not overlap, from left
    to right: a match at the head is taken and the search goes on behind
    it; where none is, the search moves one character on. *)
Inductive Findall : string -> list string -> Prop :=
| Findall_end : Findall EmptyString []
| Findall_match (s ds rest : string) (l : list string) :
    match_at_head s ds rest -> Findall rest l -> Findall s (ds :: l)
| Findall_skip (c : ascii) (s : string) (l : list string) :
    (forall ds rest, ~ match_at_head (String c s) ds rest) ->
    Findall s l -> Findall (String c s) l.

End Pages.

(** ** Data of the examples *)

Definition short_url : string := "https://short.com/".

Definition storage_url : string :=
  "https://myaccount.blob.core.windows.net/mycontainer/a%20b/c.txt?sv=1".

Definition short_citation : pyval :=
  PDict [("filepath", PStr "doc.pdf"); ("url", PStr short_url)].

Definition citation_without_filepath : pyval := PDict [("url", PStr storage_url)].

(** An instance of [json_loads] for the examples: the three literal names
    of JSON are read, every other text raises. *)
Definition json_literals (s : string) : option pyval :=
  if String.eqb s "null" then Some PNone
  else if String.eqb s "true" then Some (PBool true)
  else if String.eqb s "false" then Some (PBool false)
  else None.

Definition paged_citation : pyval :=
  PDict [("filepath", PStr "doc_pages_3_pages_17.pdf"); ("url", PStr storage_url)].

Definition sample_citations : list pyval :=
  [citation_without_filepath; paged_citation; short_citation;
   PDict [("filepath", PStr "doc.pdf")]; PNone].

(** A context whose intent is no JSON text and whose citations lack
    fields. *)
Definition sample_context : dict :=
  [("intent", PStr "not json"); ("citations", PList sample_citations)].

Definition sample_choice (context : option pyval) : OpenAI.Choice :=
  {| OpenAI.finish_reason := PStr "stop";
     OpenAI.index := PInt 0;
     OpenAI.message :=
       {| OpenAI.refusal := PNone;
          OpenAI.role := PStr "assistant";
          OpenAI.content := PStr "See [doc1].";
          OpenAI.end_turn := Some (PBool true);
          OpenAI.context := context |} |}.

(** A completion with one choice, whose message has [context] as its
    context; [None] is a message without the attribute. *)
Definition sample_completion (context : option pyval) : OpenAI.ChatCompletion :=
  {| OpenAI.choices := [sample_choice context];
     OpenAI.created := PInt 1700000000;
     OpenAI.id := PStr "chatcmpl-1";
     OpenAI.model := PStr "gpt-4o";
     OpenAI.object := PStr "extensions.chat.completion";
     OpenAI.system_fingerprint := PNone;
     OpenAI.usage :=
       Some {| OpenAI.completion_tokens := PInt 7;
               OpenAI.prompt_tokens := PInt 11;
               OpenAI.total_tokens := PInt 18 |} |}.

Definition sample_getenv (name : string) : option string :=
  if String.eqb name "OPENAI_API_BASE" then Some "https://example.openai.azure.com"
  else if String.eqb name "AZURESEARCH_API_BASE" then Some "https://example.search.windows.net"
  else None.

(** The client that [__init__] builds in that environment when no
    argument is given. *)
Definition sample_client : EasyChatClient :=
  {| _open_ai_client :=
       {| azure_endpoint := "https://example.openai.azure.com";
          azure_credential :=
            azure_ad_token_provider "https://cognitiveservices.azure.com/.default";
          api_version := "2024-02-01" |};
     _open_ai_deployment_name := "gpt-4o";
     _open_ai_embedding_deployment_name := "text-embedding-ada-002";
     _azure_search_api_base := "https://example.search.windows.net";
     _azure_search_api_key := "";
     _azure_search_index_name := "documents";
     _semantic_configuration := "documents-semantic-configuration";
     _filter := "" |}.

Definition sample_messages : dict :=
  [("messages",
     PList [PDict [("role", PStr "System"); ("content", PStr "Be brief.")];
            PDict [("role", PStr " user "); ("content", PStr "Hello")]])].

(* ================================================================== *)
(** * Further notions: what the functions do as a whole *)
(* ================================================================== *)

(** ** One citation *)

(** What the [try] block of lines 58 to 67 leaves of a citation, written
    as one expression. *)
Definition citation_parsed (citation : pyval) : pyval :=
  match citation with
  | PDict d =>
      match dict_get "filepath" d with
      | Some (PStr fp) =>
          let d1 := dict_set "pages" (PList (map PStr (PyStr.re_findall_pages fp))) d in
          match dict_get "url" d with
          | Some (PStr url) => PDict (with_storage_fields (storage_fields_of url) d1)
          | _ => PDict d1
          end
      | _ => citation
      end
  | _ => citation
  end.

(** The keys of a dictionary, in their order. *)
Definition keys (d : dict) : list string := map fst d.

(** A page as the pattern gives it: decimal digits, one at least. *)
Definition is_page (p : string) : Prop :=
  p <> EmptyString /\ PyStr.all_chars PyStr.is_digit p = true.

(** ** The contexts that the normaliser takes *)

(** A context on which the tests of lines 50 and 56 do not raise: a
    dictionary; or a list that has neither the string "intent" nor the
    string "citations" as an item; or a string in which neither word
    occurs. *)
Definition context_accepted (ctx : pyval) : bool :=
  match ctx with
  | PDict _ => true
  | PList l =>
      negb (existsb (is_str_eq "intent") l) && negb (existsb (is_str_eq "citations") l)
  | PStr s =>
      negb (PyStr.contains "intent" s) && negb (PyStr.contains "citations" s)
  | _ => false
  end.

Definition choice_accepted (choice : OpenAI.Choice) : bool :=
  match OpenAI.end_turn (OpenAI.message choice), OpenAI.context (OpenAI.message choice) with
  | Some _, Some ctx => context_accepted ctx
  | _, _ => false
  end.

Definition accepted (completion : OpenAI.ChatCompletion) : bool :=
  match OpenAI.usage completion with
  | Some _ => forallb choice_accepted (OpenAI.choices completion)
  | None => false
  end.

(** ** The settings of the client *)

(** How [__init__] settles a setting that has a default: [value] is the
    argument when that is a string other than "", the default when the
    argument is "", and for the argument [None] the variable [name] of the
    environment when that is set to a string other than "", and the
    default otherwise. *)
Definition setting_resolved (getenv : string -> option string)
  (explicit : option string) (name default value : string) : Prop :=
  (forall s, explicit = Some s -> s <> "" -> value = s)
  /\ (explicit = Some "" -> value = default)
  /\ (forall s, explicit = None -> getenv name = Some s -> s <> "" -> value = s)
  /\ (explicit = None -> getenv name = None \/ getenv name = Some "" -> value = default).

(** The client that [__init__] makes when no client is given. *)
Definition client_of_env (getenv : string -> option string) : option AzureOpenAI :=
  match getenv "OPENAI_API_BASE" with
  | None => None
  | Some base =>
      if String.eqb base "" then None
      else Some {| azure_endpoint := base;
                   azure_credential :=
                     match getenv "OPENAI_API_KEY" with
                     | None =>
                         azure_ad_token_provider
                           "https://cognitiveservices.azure.com/.default"
                     | Some key => api_key key
                     end;
                   api_version := "2024-02-01" |}
  end.

(** The search key that [__init__] stores. *)
Definition search_key_of (getenv : string -> option string) (key : option string)
  : string :=
  match key with
  | Some k => k
  | None =>
      match getenv "AZURESEARCH_API_KEY" with
      | Some k => k
      | None => ""
      end
  end.

(** ** The request *)

(** The keys of [dataSource["parameters"]] before the filter. *)
Definition parameter_keys : list string :=
  ["endpoint"; "index_name"; "top_n_documents"; "role_information";
   "fields_mapping"; "embedding_dependency"; "query_type";
   "semantic_configuration"; "authentication"].

(** The parameters of the data source in the request of [chat]. *)
Definition request_parameter (k : string) (request : Request) : option pyval :=
  at_path [K "data_sources"; I 0; K "parameters"; K k] (req_extra_body request).

(** ** Values that are no text *)

(** [None], a truth value, an integer, a list or a dictionary: the
    values whose [str] is made by the language and not given. *)
Definition not_text (v : pyval) : bool :=
  match v with
  | PStr _ | PFloat _ => false
  | _ => true
  end.

(** The characters with which the [str] of such a value can begin. *)
Definition first_chars : string := "NTF-0123456789[{".

(** ** One entry of the list of messages *)

(** The expression of the comprehension in [dict_to_chat_messages]:
    [EasyChatMessage(message["role"], message["content"])]. *)
Definition message_of_entry (message : pyval) : result EasyChatMessage :=
  role <- py_getitem message "role" ;;
  content <- py_getitem message "content" ;;
  EasyChatMessage_init role content.

(** The entry of the request for one message. *)
Definition request_message (role : string) (content : pyval) : pyval :=
  PDict [("role", PStr role); ("content", content)].

(** ** More data of the examples *)

(** An environment in which every variable of the module is set. *)
Definition full_getenv (name : string) : option string :=
  if String.eqb name "OPENAI_API_BASE" then Some "https://example.openai.azure.com"
  else if String.eqb name "OPENAI_API_KEY" then Some "chat-key"
  else if String.eqb name "OPENAI_DEPLOYMENT_NAME" then Some "gpt-4o-mini"
  else if String.eqb name "OPENAI_EMBEDDING_DEPLOYMENT_NAME" then Some "embed-small"
  else if String.eqb name "AZURESEARCH_API_BASE" then Some "https://example.search.windows.net"
  else if String.eqb name "AZURESEARCH_API_KEY" then Some "search-key"
  else if String.eqb name "AZURESEARCH_INDEX_NAME" then Some "archive"
  else None.

(** The client that [__init__] builds in that environment for the
    embedding deployment "embed-3", the index name "" and the search key
    "", all other arguments being [None]. *)
Definition full_client : EasyChatClient :=
  {| _open_ai_client :=
       {| azure_endpoint := "https://example.openai.azure.com";
          azure_credential := api_key "chat-key";
          api_version := "2024-02-01" |};
     _open_ai_deployment_name := "gpt-4o-mini";
     _open_ai_embedding_deployment_name := "embed-3";
     _azure_search_api_base := "https://example.search.windows.net";
     _azure_search_api_key := "";
     _azure_search_index_name := "documents";
     _semantic_configuration := "documents-semantic-configuration";
     _filter := "" |}.

(** ** Further properties of texts and contexts *)


(** The parsed intent is no text that [json.loads] would take again. *)
Definition intent_settled (json_loads : string -> option pyval) (d : dict) : Prop :=
  forall s x s',
    dict_get "intent" d = Some (PStr s) -> json_loads s = Some x -> x = PStr s' ->
    json_loads s' = None.

(* ================================================================== *)
(** * Lemmas on dictionaries and strings *)
(* ================================================================== *)

Lemma dict_get_set_same (k : string) (v : pyval) (d : dict) :
  dict_get k (dict_set k v d) = Some v.
Proof.
  induction d as [| [k' v'] d IH]; simpl.
  - now rewrite String.eqb_refl.
  - destruct (String.eqb k k') eqn:E; simpl.
    + now rewrite String.eqb_refl.
    + now rewrite E.
Qed.

Lemma dict_get_set_other (k k' : string) (v : pyval) (d : dict) :
  k <> k' -> dict_get k' (dict_set k v d) = dict_get k' d.
Proof.
  intros Hne.
  induction d as [| [k0 v0] d IH]; simpl.
  - destruct (String.eqb k' k) eqn:E; [| reflexivity].
    apply String.eqb_eq in E; congruence.
  - destruct (String.eqb k k0) eqn:E; simpl.
    + apply String.eqb_eq in E; subst k0.
      destruct (String.eqb k' k) eqn:E'; [| reflexivity].
      apply String.eqb_eq in E'; congruence.
    + now rewrite IH.
Qed.

Lemma dict_has_set_other (k k' : string) (v : pyval) (d : dict) :
  k <> k' -> dict_has k' (dict_set k v d) = dict_has k' d.
Proof.
  intros Hne; unfold dict_has; now rewrite dict_get_set_other.
Qed.

Lemma split_not_nil (sep : ascii) (s : string) : PyStr.split sep s <> [].
Proof.
  destruct s as [| c s]; simpl; [discriminate |].
  destruct (Ascii.eqb c sep); [discriminate |].
  destruct (PyStr.split sep s); discriminate.
Qed.

Lemma index_hd (sep : ascii) (s : string) :
  index (PyStr.split sep s) 0 = Ok (hd EmptyString (PyStr.split sep s)).
Proof.
  unfold index.
  destruct (PyStr.split sep s) eqn:E; [| reflexivity].
  now apply split_not_nil in E.
Qed.

Lemma index_nth (l : list string) (i : nat) :
  i < List.length l -> index l i = Ok (nth i l EmptyString).
Proof.
  intros Hi; unfold index.
  destruct (nth_error l i) eqn:E.
  - now rewrite (nth_error_nth _ _ _ E).
  - apply nth_error_None in E; lia.
Qed.

(* ================================================================== *)
(** * One citation: what the [try] block leaves *)
(* ================================================================== *)

Lemma page_step_dict (citation pages : pyval) :
  page_step citation = Ok pages ->
  exists d fp, citation = PDict d /\ dict_get "filepath" d = Some (PStr fp)
               /\ pages = PList (map PStr (PyStr.re_findall_pages fp)).
Proof.
  unfold page_step; intros H.
  destruct citation; try discriminate.
  simpl in H.
  destruct (dict_get "filepath" d) as [v |] eqn:E; try discriminate.
  destruct v; try discriminate.
  simpl in H. injection H as <-. eauto.
Qed.

Lemma parse_citation_page_step_raises (citation : pyval) (e : exn) :
  page_step citation = Raise e -> parse_citation citation = citation.
Proof.
  unfold page_step, parse_citation, Block.try_pass, citation_block.
  unfold Block.bind at 1. unfold Block.item at 1.
  destruct (py_getitem citation "filepath") as [fp | e0]; [| reflexivity].
  unfold bind. unfold Block.bind at 1. unfold Block.lift at 1.
  intros ->. reflexivity.
Qed.

Lemma parse_citation_pages_set (d : dict) (pages : pyval) :
  page_step (PDict d) = Ok pages ->
  parse_citation (PDict d) =
    match url_step (PDict d) with
    | Ok low =>
        match dict_get "url" d with
        | Some (PStr url) =>
            PDict (with_storage_fields (storage_fields_of url)
                     (dict_set "pages" pages d))
        | _ => PDict (dict_set "pages" pages d)
        end
    | Raise _ => PDict (dict_set "pages" pages d)
    end.
Proof.
  intros Hp.
  unfold page_step in Hp. unfold url_step.
  unfold parse_citation, Block.try_pass, citation_block.
  unfold Block.bind at 1. unfold Block.item at 1.
  destruct (py_getitem (PDict d) "filepath") as [fp | e0]; [| discriminate].
  unfold bind in Hp.
  unfold Block.bind at 1. unfold Block.lift at 1. rewrite Hp.
  unfold Block.bind at 1. unfold Block.assign at 1.
  cbn [py_setitem].
  unfold Block.bind at 1. unfold Block.item at 1.
  cbn [py_getitem].
  rewrite dict_get_set_other by discriminate.
  destruct (dict_get "url" d) as [u |] eqn:Eu; [| reflexivity].
  cbn [bind].
  unfold Block.bind at 1. unfold Block.lift at 1.
  destruct u; try reflexivity.
  cbn [str_lower].
  unfold storage_fields_of.
  destruct (PyStr.startswith (PyStr.lower s) "http"); [| reflexivity].
  unfold Block.bind at 1. unfold Block.item at 1.
  cbn [py_getitem].
  rewrite dict_get_set_other by discriminate. rewrite Eu.
  unfold Block.bind at 1. unfold Block.lift at 1.
  cbn [str_split].
  destruct (Nat.leb 4 (List.length (PyStr.split "/" s))) eqn:Elen; [| reflexivity].
  apply Nat.leb_le in Elen.
  unfold Block.bind at 1. unfold Block.lift at 1.
  rewrite index_nth by lia.
  unfold Block.bind at 1. unfold Block.lift at 1.
  rewrite index_hd.
  unfold Block.bind at 1. unfold Block.assign at 1. cbn [py_setitem].
  unfold Block.bind at 1. unfold Block.lift at 1.
  rewrite index_nth by lia.
  unfold Block.bind at 1. unfold Block.assign at 1. cbn [py_setitem].
  unfold Block.bind at 1. unfold Block.lift at 1.
  rewrite index_hd.
  unfold Block.bind at 1. unfold Block.lift at 1.
  rewrite index_hd.
  unfold Block.assign. cbn [py_setitem snd with_storage_fields].
  reflexivity.
Qed.

(* ================================================================== *)
(** * The context of one choice and the whole completion *)
(* ================================================================== *)

Section NormalizerFacts.

Variable json_loads : string -> option pyval.

Lemma parse_intent_dict (d : dict) :
  parse_intent json_loads (PDict d) = Ok (PDict (intent_parsed json_loads d)).
Proof.
  unfold parse_intent, intent_parsed, dict_has; cbn [py_contains py_getitem bind].
  unfold dict_has.
  destruct (dict_get "intent" d) as [v |] eqn:E; cbn [bind]; [| reflexivity].
  destruct v; cbn [isinstance_str]; try reflexivity.
  cbn [py_json_loads bind].
  destruct (json_loads s); reflexivity.
Qed.

Lemma parse_citations_dict (d : dict) :
  parse_citations (PDict d) = Ok (PDict (citations_parsed d)).
Proof.
  unfold parse_citations, citations_parsed; cbn [py_contains py_getitem bind].
  unfold dict_has.
  destruct (dict_get "citations" d) as [v |] eqn:E; cbn [bind]; [| reflexivity].
  destruct v; cbn [isinstance_list]; reflexivity.
Qed.

Lemma intent_parsed_other (k : string) (d : dict) :
  k <> "intent" -> dict_get k (intent_parsed json_loads d) = dict_get k d.
Proof.
  intros Hk; unfold intent_parsed.
  destruct (dict_get "intent" d) as [[] |]; try reflexivity.
  destruct (json_loads s); [| reflexivity].
  apply dict_get_set_other; congruence.
Qed.

Lemma citations_parsed_other (k : string) (d : dict) :
  k <> "citations" -> dict_get k (citations_parsed d) = dict_get k d.
Proof.
  intros Hk; unfold citations_parsed.
  destruct (dict_get "citations" d) as [[] |]; try reflexivity.
  apply dict_get_set_other; congruence.
Qed.

Lemma choice_entry_dict (choice : OpenAI.Choice) (end_turn : pyval) (d : dict) :
  OpenAI.end_turn (OpenAI.message choice) = Some end_turn ->
  OpenAI.context (OpenAI.message choice) = Some (PDict d) ->
  choice_entry json_loads choice = Ok (entry_of json_loads choice end_turn d).
Proof.
  intros He Hc. unfold choice_entry. rewrite He, Hc. cbn [OpenAI.attr bind].
  rewrite parse_intent_dict. cbn [bind].
  rewrite parse_citations_dict. reflexivity.
Qed.

Lemma append_choice_head (c : pyval) (acc : list pyval) (rest : dict) :
  append_choice c (PDict (("choices", PList acc) :: rest))
  = Ok (PDict (("choices", PList (acc ++ [c])) :: rest)).
Proof. reflexivity. Qed.

(** The loop of [get_json_serializable_data] appends the entries in the
    order of the choices, and stops at the first choice that raises. *)
Lemma for_each_append (choices : list OpenAI.Choice) (acc : list pyval) (rest : dict) :
  for_each (fun choice data => c <- choice_entry json_loads choice ;; append_choice c data)
           choices (PDict (("choices", PList acc) :: rest))
  = (cs <- comprehension (choice_entry json_loads) choices ;;
     Ok (PDict (("choices", PList (acc ++ cs)) :: rest))).
Proof.
  revert acc.
  induction choices as [| choice choices IH]; intros acc; cbn [for_each comprehension bind].
  - now rewrite app_nil_r.
  - destruct (choice_entry json_loads choice) as [c | e]; cbn [bind]; [| reflexivity].
    rewrite append_choice_head. cbn [bind].
    rewrite IH.
    destruct (comprehension (choice_entry json_loads) choices) as [cs | e]; cbn [bind];
      [| reflexivity].
    now rewrite <- app_assoc.
Qed.

Lemma get_json_serializable_data_eq (completion : OpenAI.ChatCompletion) :
  get_json_serializable_data json_loads completion
  = (u <- OpenAI.attr (OpenAI.usage completion) ;;
     entries <- comprehension (choice_entry json_loads) (OpenAI.choices completion) ;;
     Ok (data_of completion u entries)).
Proof.
  unfold get_json_serializable_data.
  destruct (OpenAI.attr (OpenAI.usage completion)) as [u | e]; cbn [bind]; [| reflexivity].
  now rewrite for_each_append.
Qed.

Lemma comprehension_choice_entry (choices : list OpenAI.Choice) :
  forallb choice_has_context choices = true ->
  exists entries,
    comprehension (choice_entry json_loads) choices = Ok entries
    /\ Forall2 (is_entry_of json_loads) choices entries.
Proof.
  induction choices as [| choice choices IH]; cbn [forallb comprehension].
  - intros _. exists []. split; [reflexivity | constructor].
  - intros H. apply andb_prop in H as [Hc Hcs].
    destruct (IH Hcs) as (entries & -> & Hall).
    unfold choice_has_context in Hc.
    destruct (OpenAI.end_turn (OpenAI.message choice)) as [et |] eqn:Eet; [| discriminate].
    destruct (OpenAI.context (OpenAI.message choice)) as [[] |] eqn:Ectx; try discriminate.
    rewrite (choice_entry_dict _ _ _ Eet Ectx). cbn [bind].
    eexists. split; [reflexivity |].
    constructor; [| assumption].
    exists et, d. auto.
Qed.

End NormalizerFacts.

(* ================================================================== *)
(** * Places in the result *)
(* ================================================================== *)

Lemma at_path_app (p q : list key) (v x : pyval) :
  at_path p v = Some x -> at_path (p ++ q) v = at_path q x.
Proof.
  revert v.
  induction p as [| [k | i] p IH]; intros v H; cbn [at_path app] in *.
  - now injection H as ->.
  - destruct v; try discriminate.
    destruct (dict_get k d); [now apply IH | discriminate].
  - destruct v; try discriminate.
    destruct (nth_error l i); [now apply IH | discriminate].
Qed.

Section Places.

Variable json_loads : string -> option pyval.

Lemma comprehension_nth (choices : list OpenAI.Choice) (entries : list pyval)
  (i : nat) (choice : OpenAI.Choice) :
  comprehension (choice_entry json_loads) choices = Ok entries ->
  nth_error choices i = Some choice ->
  exists entry, nth_error entries i = Some entry
                /\ choice_entry json_loads choice = Ok entry.
Proof.
  revert entries i.
  induction choices as [| c choices IH]; intros entries i Hc Hn.
  - destruct i; discriminate.
  - cbn [comprehension] in Hc.
    destruct (choice_entry json_loads c) as [e |] eqn:Ee; [| discriminate].
    cbn [bind] in Hc.
    destruct (comprehension (choice_entry json_loads) choices) as [es |] eqn:Ees;
      [| discriminate].
    cbn [bind] in Hc. injection Hc as <-.
    destruct i as [| i]; cbn [nth_error] in *.
    + injection Hn as <-. eauto.
    + eapply IH; eauto.
Qed.

(** In the result, the context of choice [i] is the context of the
    completion after both parsing steps. *)
Lemma context_in_result (completion : OpenAI.ChatCompletion) (i : nat)
  (choice : OpenAI.Choice) (d : dict) :
  has_contexts completion = true ->
  nth_error (OpenAI.choices completion) i = Some choice ->
  OpenAI.context (OpenAI.message choice) = Some (PDict d) ->
  exists data,
    get_json_serializable_data json_loads completion = Ok data
    /\ at_path [K "choices"; I i; K "message"; K "context"] data
       = Some (PDict (citations_parsed (intent_parsed json_loads d))).
Proof.
  intros Hw Hn Hc.
  rewrite get_json_serializable_data_eq.
  unfold has_contexts in Hw.
  destruct (OpenAI.usage completion) as [u |]; [| discriminate].
  cbn [OpenAI.attr bind].
  destruct (comprehension_choice_entry json_loads _ Hw) as (entries & He & _).
  rewrite He. cbn [bind].
  destruct (comprehension_nth _ _ _ _ He Hn) as (entry & Hentry & Hce).
  eexists. split; [reflexivity |].
  assert (Het : exists et, OpenAI.end_turn (OpenAI.message choice) = Some et).
  { rewrite forallb_forall in Hw.
    specialize (Hw choice (nth_error_In _ _ Hn)).
    unfold choice_has_context in Hw.
    destruct (OpenAI.end_turn (OpenAI.message choice)); [eauto | discriminate]. }
  destruct Het as [et Het].
  rewrite (choice_entry_dict json_loads _ _ _ Het Hc) in Hce. injection Hce as <-.
  unfold data_of. cbn [at_path dict_get String.eqb Ascii.eqb Bool.eqb].
  rewrite Hentry. reflexivity.
Qed.

(** In the result, citation [j] of choice [i] is what the [try] block
    leaves of it. *)
Lemma citation_in_result (completion : OpenAI.ChatCompletion) (i j : nat)
  (choice : OpenAI.Choice) (d : dict) (citations : list pyval) (citation : pyval) :
  has_contexts completion = true ->
  nth_error (OpenAI.choices completion) i = Some choice ->
  OpenAI.context (OpenAI.message choice) = Some (PDict d) ->
  dict_get "citations" d = Some (PList citations) ->
  nth_error citations j = Some citation ->
  exists data,
    get_json_serializable_data json_loads completion = Ok data
    /\ at_path [K "choices"; I i; K "message"; K "context"; K "citations"; I j] data
       = Some (parse_citation citation).
Proof.
  intros Hw Hn Hc Hcit Hj.
  destruct (context_in_result _ _ _ _ Hw Hn Hc) as (data & Hdata & Hctx).
  exists data. split; [assumption |].
  change [K "choices"; I i; K "message"; K "context"; K "citations"; I j]
    with ([K "choices"; I i; K "message"; K "context"] ++ [K "citations"; I j]).
  rewrite (at_path_app _ _ _ _ Hctx).
  cbn [at_path]. unfold citations_parsed.
  rewrite intent_parsed_other by discriminate. rewrite Hcit.
  rewrite dict_get_set_same.
  rewrite nth_error_map, Hj. reflexivity.
Qed.

End Places.

(* ================================================================== *)
(** * What [re.findall] returns for the pattern of the pages *)
(* ================================================================== *)

Module PagesFacts.

Import PyStr Pages.

Lemma length_app (a b : string) :
  String.length (a ++ b) = String.length a + String.length b.
Proof. induction a; simpl; congruence. Qed.

Lemma drop_app (a b : string) : drop (String.length a) (a ++ b) = b.
Proof. induction a; simpl; [destruct b |]; auto. Qed.

Lemma prefix_app_drop (p s : string) :
  prefix p s = true -> s = (p ++ drop (String.length p) s)%string.
Proof.
  revert s.
  induction p as [| c p IH]; intros s H.
  - now destruct s.
  - destruct s as [| c' s]; simpl in H; [discriminate |].
    destruct (ascii_dec c c') as [-> | Hne]; [| discriminate].
    simpl. f_equal. now apply IH.
Qed.

Lemma prefix_app (p s : string) : prefix p (p ++ s) = true.
Proof.
  induction p as [| c p IH]; simpl.
  - now destruct s.
  - destruct (ascii_dec c c); [assumption | congruence].
Qed.

Lemma digits_prefix_app (ds rest : string) :
  all_chars is_digit ds = true -> starts_with_digit rest = false ->
  digits_prefix (ds ++ rest) = ds.
Proof.
  intros Hds Hrest.
  induction ds as [| c ds IH]; simpl in *.
  - destruct rest as [| c rest]; [reflexivity |].
    simpl in *. now rewrite Hrest.
  - apply andb_prop in Hds as [Hc Hds]. rewrite Hc. f_equal. auto.
Qed.

Lemma digits_prefix_split (s : string) :
  all_chars is_digit (digits_prefix s) = true
  /\ starts_with_digit (drop (String.length (digits_prefix s)) s) = false
  /\ s = (digits_prefix s ++ drop (String.length (digits_prefix s)) s)%string.
Proof.
  induction s as [| c s (IH1 & IH2 & IH3)]; simpl.
  - auto.
  - destruct (is_digit c) eqn:E; simpl.
    + rewrite E. repeat split; auto. now f_equal.
    + rewrite E. auto.
Qed.

(** [match_pages] decides [match_at_head] and computes its group. *)
Lemma match_pages_sound (s ds : string) :
  match_pages s = Some ds ->
  match_at_head s ds (drop (7 + String.length ds) s).
Proof.
  unfold match_pages.
  destruct (prefix pages_marker s) eqn:Hp; [| discriminate].
  apply prefix_app_drop in Hp. change (String.length pages_marker) with 7 in Hp.
  destruct (digits_prefix_split (drop 7 s)) as (H1 & H2 & H3).
  destruct (digits_prefix (drop 7 s)) as [| c ds'] eqn:Ed; [discriminate |].
  intros [= <-].
  assert (Hrest : drop (7 + String.length (String c ds')) s
                  = drop (String.length (String c ds')) (drop 7 s)).
  { rewrite Hp at 1.
    change (7 + String.length (String c ds'))
      with (S (S (S (S (S (S (S (String.length (String c ds'))))))))).
    reflexivity. }
  rewrite Hrest.
  rewrite Hp at 1. rewrite H3 at 1.
  constructor; [discriminate | assumption | assumption].
Qed.

Lemma match_pages_complete (s ds rest : string) :
  match_at_head s ds rest -> match_pages s = Some ds.
Proof.
  intros [ds' rest' Hne Hds Hrest].
  unfold match_pages.
  rewrite prefix_app.
  change (drop 7 (pages_marker ++ ds' ++ rest')) with (ds' ++ rest')%string.
  rewrite digits_prefix_app by assumption.
  destruct ds'; [congruence | reflexivity].
Qed.

Lemma match_at_head_rest (s ds rest : string) :
  match_at_head s ds rest -> rest = drop (7 + String.length ds) s.
Proof.
  intros [ds' rest' _ _ _].
  change (drop (7 + String.length ds') (pages_marker ++ ds' ++ rest'))
    with (drop (String.length ds') (ds' ++ rest')).
  now rewrite drop_app.
Qed.

Lemma match_at_head_length (s ds rest : string) :
  match_at_head s ds rest ->
  String.length s = 7 + String.length ds + String.length rest.
Proof.
  intros [ds' rest' _ _ _]. rewrite !length_app. reflexivity.
Qed.

Lemma findall_from_drop (k : nat) (s : string) :
  findall_from k s = findall_from 0 (drop k s).
Proof.
  revert k.
  induction s as [| c s IH]; intros k.
  - now destruct k.
  - destruct k as [| k]; [reflexivity |].
    simpl. apply IH.
Qed.

(** The scan, one step at a time. *)
Lemma re_findall_pages_step (c : ascii) (s : string) :
  re_findall_pages (String c s)
  = match match_pages (String c s) with
    | Some ds => ds :: re_findall_pages (drop (7 + String.length ds) (String c s))
    | None => re_findall_pages s
    end.
Proof.
  unfold re_findall_pages. cbn [findall_from].
  destruct (match_pages (String c s)) as [ds |]; [| reflexivity].
  now rewrite findall_from_drop.
Qed.

Lemma Findall_re_findall_pages_length (n : nat) :
  forall s, String.length s <= n -> Findall s (re_findall_pages s).
Proof.
  induction n as [| n IH]; intros s Hlen.
  - destruct s; [constructor | simpl in Hlen; lia].
  - destruct s as [| c s]; [constructor |].
    rewrite re_findall_pages_step.
    destruct (match_pages (String c s)) as [ds |] eqn:Em.
    + pose proof (match_pages_sound _ _ Em) as Hm.
      eapply Findall_match; [exact Hm |].
      apply IH.
      apply match_at_head_length in Hm. lia.
    + apply Findall_skip.
      * intros ds rest Hm. apply match_pages_complete in Hm. congruence.
      * apply IH. simpl in Hlen. lia.
Qed.

(** [re_findall_pages] computes the list that the pattern describes, and
    no other list fits. *)
Lemma Findall_re_findall_pages (s : string) : Findall s (re_findall_pages s).
Proof. now apply (Findall_re_findall_pages_length (String.length s)). Qed.

Lemma Findall_unique (s : string) (l : list string) :
  Findall s l -> l = re_findall_pages s.
Proof.
  induction 1 as [| s ds rest l Hm _ IH | c s l Hno _ IH].
  - reflexivity.
  - pose proof (match_pages_complete _ _ _ Hm) as Em.
    pose proof (match_at_head_rest _ _ _ Hm) as Hr.
    destruct s as [| c s]; [inversion Hm |].
    rewrite re_findall_pages_step, Em, <- Hr. now f_equal.
  - rewrite re_findall_pages_step.
    destruct (match_pages (String c s)) as [ds |] eqn:Em; [| assumption].
    exfalso. eapply Hno. eapply match_pages_sound. exact Em.
Qed.

End PagesFacts.

(* ================================================================== *)
(** * Citations: pages and storage fields *)
(* ================================================================== *)

Lemma with_storage_fields_other (k : string) (fields : option (string * string * string))
  (d : dict) :
  ~ In k storage_keys ->
  dict_get k (with_storage_fields fields d) = dict_get k d.
Proof.
  intros Hk. destruct fields as [[[name container] blob] |]; [| reflexivity].
  unfold with_storage_fields, storage_keys in *. simpl in Hk.
  rewrite !dict_get_set_other; intuition congruence.
Qed.

Lemma with_storage_fields_some (name container blob : string) (d : dict) :
  map (fun k => dict_get k (with_storage_fields (Some (name, container, blob)) d))
      storage_keys
  = [Some (PStr name); Some (PStr container); Some (PStr blob)].
Proof.
  unfold with_storage_fields, storage_keys. cbn [map].
  f_equal; [| f_equal; [| f_equal]].
  - rewrite 2 dict_get_set_other by discriminate. apply dict_get_set_same.
  - rewrite dict_get_set_other by discriminate. apply dict_get_set_same.
  - apply dict_get_set_same.
Qed.

Lemma page_step_filepath (d : dict) (fp : string) :
  dict_get "filepath" d = Some (PStr fp) ->
  page_step (PDict d) = Ok (PList (map PStr (PyStr.re_findall_pages fp))).
Proof. intros H. unfold page_step. cbn [py_getitem]. now rewrite H. Qed.

(** A citation with a string as [filepath] and a string as [url]. *)
Lemma parse_citation_filepath_url (d : dict) (fp url : string) :
  dict_get "filepath" d = Some (PStr fp) ->
  dict_get "url" d = Some (PStr url) ->
  parse_citation (PDict d)
  = PDict (with_storage_fields (storage_fields_of url)
             (dict_set "pages" (PList (map PStr (PyStr.re_findall_pages fp))) d)).
Proof.
  intros Hfp Hurl.
  rewrite (parse_citation_pages_set _ _ (page_step_filepath _ _ Hfp)).
  unfold url_step. cbn [py_getitem]. rewrite Hurl. reflexivity.
Qed.

(** The pages are set whenever [filepath] is a string, whatever [url] is. *)
Lemma parse_citation_pages (citation : pyval) (fp : string) :
  field "filepath" citation = Some (PStr fp) ->
  field "pages" (parse_citation citation)
  = Some (PList (map PStr (PyStr.re_findall_pages fp))).
Proof.
  intros Hfp.
  destruct citation as [| | | | | | d]; try discriminate.
  cbn [field] in Hfp.
  rewrite (parse_citation_pages_set _ _ (page_step_filepath _ _ Hfp)).
  assert (Hp : forall fields,
             dict_get "pages"
               (with_storage_fields fields
                  (dict_set "pages" (PList (map PStr (PyStr.re_findall_pages fp))) d))
             = Some (PList (map PStr (PyStr.re_findall_pages fp)))).
  { intros fields. rewrite with_storage_fields_other.
    - apply dict_get_set_same.
    - unfold storage_keys; simpl; intuition discriminate. }
  destruct (url_step (PDict d)); [| exact (Hp None)].
  destruct (dict_get "url" d) as [[] |]; try exact (Hp None).
  apply Hp.
Qed.

Lemma pages_only_adds_no_storage_field (d : dict) (pages : pyval) (k : string) :
  In k storage_keys -> dict_get k (dict_set "pages" pages d) = dict_get k d.
Proof.
  intros Hk. apply dict_get_set_other.
  unfold storage_keys in Hk; simpl in Hk; intuition (subst; discriminate).
Qed.

Lemma no_storage_fields_of_added (citation : pyval) :
  (forall url, field "url" citation = Some (PStr url) -> storage_fields_of url = None) ->
  adds_no_storage_field citation.
Proof.
  intros Hnone k Hk.
  destruct (page_step citation) as [pages | e] eqn:Hp.
  - destruct (page_step_dict _ _ Hp) as (d & fp & -> & Hfp & ->).
    rewrite (parse_citation_pages_set _ _ Hp). cbn [field] in *.
    destruct (url_step (PDict d));
      [| now apply pages_only_adds_no_storage_field].
    destruct (dict_get "url" d) as [[] |] eqn:Hu;
      try now apply pages_only_adds_no_storage_field.
    rewrite (Hnone s eq_refl). now apply pages_only_adds_no_storage_field.
  - now rewrite (parse_citation_page_step_raises _ _ Hp).
Qed.

(** C1, as the specification states it, fails: the url "https://short.com/"
    splits into the four segments "https:", "", "short.com" and "", so the
    block adds the storage fields of a citation with that url. *)
Lemma C1_short_url_counterexample : ~ adds_no_storage_field short_citation.
Proof.
  intros H.
  specialize (H "storageaccount_name" (or_introl eq_refl)).
  vm_compute in H. discriminate.
Qed.

(** C1 (amended): a citation whose [filepath] is a string and whose url is
    "https://short.com/" gets the storage fields "short", "" and ""; a
    citation whose url splits on "/" into fewer than 4 segments gets no
    storage field, whether the url starts with "http" or not; and for the
    url "https://myaccount.blob.core.windows.net/mycontainer/a%20b/c.txt?sv=1"
    and a string as [filepath] the fields are "myaccount", "mycontainer"
    and "a b/c.txt".  ([parse_citation] is what the normaliser leaves of a
    citation in its result: [citation_in_result].) *)
Theorem C1_storage_fields :
  (forall d fp,
      dict_get "filepath" d = Some (PStr fp) ->
      dict_get "url" d = Some (PStr short_url) ->
      map (fun k => field k (parse_citation (PDict d))) storage_keys
      = [Some (PStr "short"); Some (PStr ""); Some (PStr "")])
  /\ (forall citation url,
         field "url" citation = Some (PStr url) ->
         List.length (PyStr.split "/" url) < 4 ->
         adds_no_storage_field citation)
  /\ (forall d fp,
         dict_get "filepath" d = Some (PStr fp) ->
         dict_get "url" d = Some (PStr storage_url) ->
         map (fun k => field k (parse_citation (PDict d))) storage_keys
         = [Some (PStr "myaccount"); Some (PStr "mycontainer"); Some (PStr "a b/c.txt")]).
Proof.
  split; [| split].
  - intros d fp Hfp Hurl.
    rewrite (parse_citation_filepath_url _ _ _ Hfp Hurl). cbn [field].
    change (storage_fields_of short_url) with (Some ("short", "", "")).
    apply with_storage_fields_some.
  - intros citation url Hurl Hlen.
    apply no_storage_fields_of_added.
    intros url' Hurl'. rewrite Hurl in Hurl'. injection Hurl' as <-.
    unfold storage_fields_of.
    destruct (PyStr.startswith (PyStr.lower url) "http"); [| reflexivity].
    apply Nat.leb_gt in Hlen. cbv zeta. now rewrite Hlen.
  - intros d fp Hfp Hurl.
    rewrite (parse_citation_filepath_url _ _ _ Hfp Hurl). cbn [field].
    replace (storage_fields_of storage_url)
      with (Some ("myaccount", "mycontainer", "a b/c.txt")) by (vm_compute; reflexivity).
    apply with_storage_fields_some.
Qed.

(** C3, as the specification states it, fails: a citation with a good url
    and no [filepath] gets no storage field, because the one [try] block
    ends at the [KeyError] of line 59. *)
Lemma C3_missing_filepath_counterexample : ~ fields_parsed_apart.
Proof.
  intros H.
  specialize (H citation_without_filepath storage_url
                "myaccount" "mycontainer" "a b/c.txt" (KeyError "filepath")).
  vm_compute in H.
  specialize (H eq_refl eq_refl eq_refl). discriminate.
Qed.

(** C3 (amended): failures are swallowed per citation, by one [try] block
    that runs the page step and then the url step.  When the page step
    raises (no [filepath], or one that is no string, or a citation that is
    no dictionary) the citation stays as it is and the url is not looked
    at; when the page step succeeds and the url step raises (no [url], or
    one that is no string) the citation keeps its [pages] and gets nothing
    else; and a citation never stops the loop: the list of the citations
    becomes the list of what the block leaves of each one
    ([citation_in_result] finds them in the result of the normaliser). *)
Theorem C3_one_try_block_per_citation :
  (forall citation e,
      page_step citation = Raise e -> parse_citation citation = citation)
  /\ (forall d pages e,
         page_step (PDict d) = Ok pages ->
         url_step (PDict d) = Raise e ->
         parse_citation (PDict d) = PDict (dict_set "pages" pages d))
  /\ (forall d citations,
         dict_get "citations" d = Some (PList citations) ->
         parse_citations (PDict d)
         = Ok (PDict (dict_set "citations" (PList (map parse_citation citations)) d))).
Proof.
  split; [| split].
  - exact parse_citation_page_step_raises.
  - intros d pages e Hp Hu.
    rewrite (parse_citation_pages_set _ _ Hp). now rewrite Hu.
  - intros d citations Hc.
    rewrite parse_citations_dict. unfold citations_parsed. now rewrite Hc.
Qed.

(** C7: in the result of the normaliser, every citation whose [filepath]
    is a string has as [pages] the list of the digit strings that the
    pattern [_pages_(\d+)] matches in it, from left to right; that list is
    the one the pattern describes ([Pages.Findall]), and the only one; for
    "doc_pages_3_pages_17.pdf" it is ["3", "17"] and for "doc.pdf", which
    has no match, it is the empty list. *)
Theorem C7_pages_of_citation (json_loads : string -> option pyval)
  (completion : OpenAI.ChatCompletion) (i j : nat) (choice : OpenAI.Choice)
  (d : dict) (citations : list pyval) (citation : pyval) (fp : string) :
  has_contexts completion = true ->
  nth_error (OpenAI.choices completion) i = Some choice ->
  OpenAI.context (OpenAI.message choice) = Some (PDict d) ->
  dict_get "citations" d = Some (PList citations) ->
  nth_error citations j = Some citation ->
  field "filepath" citation = Some (PStr fp) ->
  (exists data,
      get_json_serializable_data json_loads completion = Ok data
      /\ at_path [K "choices"; I i; K "message"; K "context"; K "citations"; I j;
                  K "pages"] data
         = Some (PList (map PStr (PyStr.re_findall_pages fp))))
  /\ Pages.Findall fp (PyStr.re_findall_pages fp)
  /\ (forall l, Pages.Findall fp l -> l = PyStr.re_findall_pages fp)
  /\ PyStr.re_findall_pages "doc_pages_3_pages_17.pdf" = ["3"; "17"]
  /\ PyStr.re_findall_pages "doc.pdf" = [].
Proof.
  intros Hw Hn Hc Hcit Hj Hfp.
  split; [| split; [apply PagesFacts.Findall_re_findall_pages |
                    split; [apply PagesFacts.Findall_unique | split; reflexivity]]].
  destruct (citation_in_result json_loads _ _ _ _ _ _ _ Hw Hn Hc Hcit Hj)
    as (data & Hdata & Hat).
  exists data. split; [assumption |].
  change [K "choices"; I i; K "message"; K "context"; K "citations"; I j; K "pages"]
    with ([K "choices"; I i; K "message"; K "context"; K "citations"; I j]
            ++ [K "pages"]).
  rewrite (at_path_app _ _ _ _ Hat).
  pose proof (parse_citation_pages _ _ Hfp) as Hp.
  destruct (parse_citation citation); try discriminate.
  cbn [at_path field] in *. now rewrite Hp.
Qed.

(** C8: in the result of the normaliser, the [intent] of a context is the
    parsed value when the field held a string that [json.loads] accepts,
    the same string when [json.loads] raises, and the same value when the
    field held no string; no error comes of it. *)
Theorem C8_intent_of_context (json_loads : string -> option pyval)
  (completion : OpenAI.ChatCompletion) (i : nat) (choice : OpenAI.Choice) (d : dict) :
  has_contexts completion = true ->
  nth_error (OpenAI.choices completion) i = Some choice ->
  OpenAI.context (OpenAI.message choice) = Some (PDict d) ->
  exists data,
    get_json_serializable_data json_loads completion = Ok data
    /\ at_path [K "choices"; I i; K "message"; K "context"; K "intent"] data
       = match dict_get "intent" d with
         | Some (PStr s) =>
             match json_loads s with
             | Some x => Some x
             | None => Some (PStr s)
             end
         | other => other
         end.
Proof.
  intros Hw Hn Hc.
  destruct (context_in_result json_loads _ _ _ _ Hw Hn Hc) as (data & Hdata & Hat).
  exists data. split; [assumption |].
  change [K "choices"; I i; K "message"; K "context"; K "intent"]
    with ([K "choices"; I i; K "message"; K "context"] ++ [K "intent"]).
  rewrite (at_path_app _ _ _ _ Hat). cbn [at_path].
  rewrite citations_parsed_other by discriminate.
  unfold intent_parsed.
  destruct (dict_get "intent" d) as [v |] eqn:Ei; [| now rewrite Ei].
  destruct v; try now rewrite Ei.
  destruct (json_loads s).
  - now rewrite dict_get_set_same.
  - now rewrite Ei.
Qed.

(** C2 (amended): the normaliser returns, and raises nothing, for every
    completion whose [usage] is there and whose messages all have
    [end_turn] and a dictionary as [context], whatever the citations and
    the intent in it are; the result has the top level fields of the
    completion and, for each choice and in their order, the entry of that
    choice. *)
Theorem C2_normalizer_returns (json_loads : string -> option pyval)
  (completion : OpenAI.ChatCompletion) :
  has_contexts completion = true ->
  exists u entries,
    OpenAI.usage completion = Some u
    /\ get_json_serializable_data json_loads completion
       = Ok (data_of completion u entries)
    /\ Forall2 (is_entry_of json_loads) (OpenAI.choices completion) entries
    /\ List.length entries = List.length (OpenAI.choices completion).
Proof.
  intros Hw. rewrite get_json_serializable_data_eq.
  unfold has_contexts in Hw.
  destruct (OpenAI.usage completion) as [u |]; [| discriminate].
  destruct (comprehension_choice_entry json_loads _ Hw) as (entries & He & Hall).
  exists u, entries. cbn [OpenAI.attr bind]. rewrite He.
  repeat split; try assumption.
  symmetry. exact (Forall2_length Hall).
Qed.

(* ================================================================== *)
(** * Messages *)
(* ================================================================== *)

Lemma valid_role_In (role : pyval) :
  valid_role role = true <-> In (canonical_role role) roles.
Proof.
  unfold valid_role. rewrite existsb_exists. split.
  - intros (x & Hx & He). apply String.eqb_eq in He. now subst.
  - intros H. exists (canonical_role role). split; [assumption |].
    apply String.eqb_refl.
Qed.

Lemma valid_role_In' (r : string) :
  In r roles -> existsb (String.eqb r) roles = true.
Proof.
  intros H. apply existsb_exists. exists r. split; [assumption |].
  apply String.eqb_refl.
Qed.

Lemma EasyChatMessage_init_eq (role content : pyval) :
  EasyChatMessage_init role content
  = if valid_role role
    then Ok {| role := canonical_role role; content := content |}
    else Raise InvalidRole.
Proof.
  unfold EasyChatMessage_init, valid_role, canonical_role.
  now destruct (existsb _ roles).
Qed.

(* ================================================================== *)
(** * The request *)
(* ================================================================== *)

(** C5: the descriptor that [chat] sends has the parameters as a
    dictionary whose [authentication] is the block of the managed identity
    when the search key of the client is the empty string, and the block
    with the key for every other key; one of the two is always there. *)
Theorem C5_authentication_block (self : EasyChatClient) (messages : list EasyChatMessage) :
  at_path [K "data_sources"; I 0; K "parameters"; K "authentication"]
          (req_extra_body (chat_request self messages))
  = Some (if String.eqb (_azure_search_api_key self) ""
          then managed_identity
          else api_key_authentication (_azure_search_api_key self)).
Proof.
  unfold chat_request, dataSource, dataSource_parameters.
  cbn [req_extra_body at_path dict_get nth_error String.eqb Ascii.eqb Bool.eqb].
  destruct (String.eqb (_azure_search_api_key self) "");
    destruct (negb (String.eqb (_filter self) "")); reflexivity.
Qed.

(** C6: the parameters of the descriptor that [chat] sends have no key
    [filter] when the filter of the client is the empty string, and have
    the filter string itself under that key otherwise. *)
Theorem C6_filter_key (self : EasyChatClient) (messages : list EasyChatMessage) :
  at_path [K "data_sources"; I 0; K "parameters"; K "filter"]
          (req_extra_body (chat_request self messages))
  = if String.eqb (_filter self) "" then None else Some (PStr (_filter self)).
Proof.
  unfold chat_request, dataSource, dataSource_parameters.
  cbn [req_extra_body at_path dict_get nth_error String.eqb Ascii.eqb Bool.eqb].
  destruct (String.eqb (_azure_search_api_key self) "");
    destruct (String.eqb (_filter self) ""); reflexivity.
Qed.

(* ================================================================== *)
(** * The filter of the client *)
(* ================================================================== *)

(** C10: after [setSearchFilter(v)] the filter that [getSearchFilter]
    returns is [str(v)], for a string [v] the string itself and for any
    other value its text; a client that [__init__] has just built has the
    empty filter; and [chat] leaves the filter as it was. *)
Theorem C10_search_filter :
  (forall self v, getSearchFilter (setSearchFilter self v) = py_str v)
  /\ (forall self s, getSearchFilter (setSearchFilter self (PStr s)) = s)
  /\ (forall getenv client deployment embedding base index_name key semantic self,
         EasyChatClient_init getenv client deployment embedding base index_name key
                             semantic = Ok self ->
         getSearchFilter self = "")
  /\ (forall json_loads create self messages,
         getSearchFilter (snd (chat json_loads create self messages))
         = getSearchFilter self).
Proof.
  repeat split; try reflexivity.
  intros getenv client deployment embedding base index_name key semantic self H.
  unfold EasyChatClient_init in H.
  destruct (match client with Some c => Ok c | None => _ end) as [c |]; [| discriminate].
  cbn [bind] in H.
  destruct (or_getenv getenv base "AZURESEARCH_API_BASE") as [b |]; [| discriminate].
  destruct (String.eqb b ""); [discriminate |].
  injection H as <-. reflexivity.
Qed.

(* ================================================================== *)
(** * [dict_to_chat_messages] *)
(* ================================================================== *)

Lemma comprehension_messages (entries : list pyval) (pairs : list (pyval * pyval)) :
  map entry_fields entries = map Some pairs ->
  comprehension
    (fun message =>
       role <- py_getitem message "role" ;;
       content <- py_getitem message "content" ;;
       EasyChatMessage_init role content)
    entries
  = if forallb (fun rc => valid_role (fst rc)) pairs
    then Ok (map message_of pairs)
    else Raise InvalidRole.
Proof.
  revert pairs.
  induction entries as [| entry entries IH]; intros [| [r c] pairs] H;
    try discriminate; [reflexivity |].
  cbn [map] in H. injection H as He Hrest.
  cbn [comprehension forallb fst map].
  unfold entry_fields in He.
  destruct entry; try discriminate.
  destruct (dict_get "role" d) as [r' |] eqn:Er; [| discriminate].
  destruct (dict_get "content" d) as [c' |] eqn:Ec; [| discriminate].
  injection He as -> ->.
  cbn [py_getitem]. rewrite Er, Ec. cbn [bind].
  rewrite EasyChatMessage_init_eq.
  destruct (valid_role r); cbn [bind andb]; [| reflexivity].
  rewrite (IH pairs Hrest).
  now destruct (forallb _ pairs).
Qed.

(** C9: [dict_to_chat_messages] returns the empty list for a dictionary
    without the key "messages"; for a list of entries that each have a
    role and a content it returns the messages built from them, one for
    each entry and in their order, when every role is valid, and raises
    the error of an invalid role when some role is not. *)
Theorem C9_dict_to_chat_messages (data : dict) :
  (dict_has "messages" data = false -> dict_to_chat_messages data = Ok [])
  /\ (forall entries pairs,
         dict_get "messages" data = Some (PList entries) ->
         map entry_fields entries = map Some pairs ->
         dict_to_chat_messages data
         = if forallb (fun rc => valid_role (fst rc)) pairs
           then Ok (map message_of pairs)
           else Raise InvalidRole).
Proof.
  split.
  - intros H. unfold dict_to_chat_messages. now rewrite H.
  - intros entries pairs Hm He.
    unfold dict_to_chat_messages, dict_has. rewrite Hm.
    cbn [py_getitem]. rewrite Hm. cbn [bind py_iter].
    now apply comprehension_messages.
Qed.

(* ================================================================== *)
(** * Roles with white space around them and in any case *)
(* ================================================================== *)

Module Padding.

Import PyStr.

Lemma lower_char_space (c : ascii) : is_space c = true -> lower_char c = c.
Proof.
  destruct c as [b0 b1 b2 b3 b4 b5 b6 b7].
  destruct b0, b1, b2, b3, b4, b5, b6, b7; intros H; try reflexivity; discriminate H.
Qed.

Lemma is_space_lower_char (c : ascii) :
  is_space (lower_char c) = false -> is_space c = false.
Proof.
  intros H. destruct (is_space c) eqn:E; [| reflexivity].
  rewrite (lower_char_space c E) in H. congruence.
Qed.

Lemma starts_nonspace_lower (s : string) :
  starts_nonspace (lower s) = true -> starts_nonspace s = true.
Proof.
  destruct s as [| c s]; simpl; [auto |].
  intros H. apply negb_true_iff in H. apply negb_true_iff.
  now apply is_space_lower_char.
Qed.

Lemma ends_nonspace_lower (s : string) :
  ends_nonspace (lower s) = true -> ends_nonspace s = true.
Proof.
  induction s as [| c s IH]; [auto |].
  destruct s as [| c' s]; simpl in *.
  - intros H. apply negb_true_iff in H. apply negb_true_iff.
    now apply is_space_lower_char.
  - exact IH.
Qed.

Lemma lstrip_spaces_app (ws s : string) :
  all_chars is_space ws = true -> lstrip (ws ++ s) = lstrip s.
Proof.
  induction ws as [| c ws IH]; simpl; [auto |].
  intros H. apply andb_prop in H as [Hc Hws]. rewrite Hc. auto.
Qed.

Lemma lstrip_starts_nonspace (s : string) :
  starts_nonspace s = true -> lstrip s = s.
Proof.
  destruct s as [| c s]; simpl; [auto |].
  intros H. apply negb_true_iff in H. now rewrite H.
Qed.

Lemma rstrip_spaces (ws : string) :
  all_chars is_space ws = true -> rstrip ws = EmptyString.
Proof.
  induction ws as [| c ws IH]; simpl; [auto |].
  intros H. apply andb_prop in H as [Hc Hws]. now rewrite (IH Hws), Hc.
Qed.

Lemma rstrip_app_spaces (s ws : string) :
  all_chars is_space ws = true -> rstrip (s ++ ws) = rstrip s.
Proof.
  intros H. induction s as [| c s IH]; simpl.
  - now apply rstrip_spaces.
  - now rewrite IH.
Qed.

Lemma rstrip_ends_nonspace (s : string) :
  ends_nonspace s = true -> rstrip s = s.
Proof.
  induction s as [| c s IH]; [auto |].
  destruct s as [| c' s].
  - simpl. intros H. apply negb_true_iff in H. now rewrite H.
  - intros H. change (ends_nonspace (String c (String c' s)))
      with (ends_nonspace (String c' s)) in H.
    change (rstrip (String c (String c' s)))
      with (match rstrip (String c' s) with
            | EmptyString => if is_space c then EmptyString else String c EmptyString
            | r => String c r
            end).
    now rewrite (IH H).
Qed.

(** White space around a text that begins and ends with other characters
    is what [strip] takes away. *)
Lemma strip_padded (ws1 w ws2 : string) :
  all_chars is_space ws1 = true ->
  all_chars is_space ws2 = true ->
  starts_nonspace w = true -> ends_nonspace w = true ->
  strip (ws1 ++ w ++ ws2) = w.
Proof.
  intros H1 H2 Hs He. unfold strip.
  rewrite lstrip_spaces_app by assumption.
  rewrite lstrip_starts_nonspace.
  - rewrite rstrip_app_spaces by assumption. now apply rstrip_ends_nonspace.
  - destruct w; [discriminate | exact Hs].
Qed.

Lemma role_edges (w : string) :
  In (lower w) roles -> starts_nonspace w = true /\ ends_nonspace w = true.
Proof.
  intros H. split.
  - apply starts_nonspace_lower.
    unfold roles in H; simpl in H.
    destruct H as [<- | [<- | [<- | []]]]; reflexivity.
  - apply ends_nonspace_lower.
    unfold roles in H; simpl in H.
    destruct H as [<- | [<- | [<- | []]]]; reflexivity.
Qed.

(** A role in any case, with any white space before and after it, is
    accepted and stored in lower case. *)
Lemma padded_role_accepted (ws1 w ws2 : string) (c : pyval) :
  all_chars is_space ws1 = true ->
  all_chars is_space ws2 = true ->
  In (lower w) roles ->
  EasyChatMessage_init (PStr (ws1 ++ w ++ ws2)) c
  = Ok {| role := lower w; content := c |}.
Proof.
  intros H1 H2 Hw.
  destruct (role_edges w Hw) as [Hs He].
  rewrite EasyChatMessage_init_eq.
  unfold valid_role, canonical_role. cbn [py_str].
  rewrite (strip_padded ws1 w ws2 H1 H2 Hs He).
  apply valid_role_In' in Hw. now rewrite Hw.
Qed.

End Padding.

(** C4: the construction of a message succeeds exactly when the role
    string, stripped and in lower case, is "system", "user" or
    "assistant"; the message then holds that role and the content as it
    was given; for every other role string the construction raises the
    error of an invalid role.  So a role in any case with any white space
    around it is accepted and stored in lower case. *)
Theorem C4_message_construction :
  (forall (r : string) (c : pyval),
      let canonical := PyStr.lower (PyStr.strip r) in
      ((exists m, EasyChatMessage_init (PStr r) c = Ok m) <-> In canonical roles)
      /\ (In canonical roles ->
          EasyChatMessage_init (PStr r) c = Ok {| role := canonical; content := c |})
      /\ (~ In canonical roles ->
          EasyChatMessage_init (PStr r) c = Raise InvalidRole))
  /\ (forall (ws1 w ws2 : string) (c : pyval),
         PyStr.all_chars PyStr.is_space ws1 = true ->
         PyStr.all_chars PyStr.is_space ws2 = true ->
         In (PyStr.lower w) roles ->
         EasyChatMessage_init (PStr (ws1 ++ w ++ ws2)) c
         = Ok {| role := PyStr.lower w; content := c |}).
Proof.
  split; [| exact Padding.padded_role_accepted].
  intros r c. cbv zeta. rewrite EasyChatMessage_init_eq.
  change (PyStr.lower (PyStr.strip r)) with (canonical_role (PStr r)).
  rewrite <- valid_role_In.
  destruct (valid_role (PStr r)); repeat split; intros; try congruence.
  - eauto.
  - destruct H; discriminate.
Qed.

(* ================================================================== *)
(** * The statements at the data of the examples *)
(* ================================================================== *)

(** C1 at two citations: the url "https://short.com" without the slash at
    its end has three segments and gets no storage field, and the citation
    with the url of the storage account gets the three of them. *)
Lemma C1_storage_fields_witness :
  adds_no_storage_field
    (PDict [("filepath", PStr "doc.pdf"); ("url", PStr "https://short.com")])
  /\ map (fun k => field k (parse_citation paged_citation)) storage_keys
     = [Some (PStr "myaccount"); Some (PStr "mycontainer"); Some (PStr "a b/c.txt")]
  /\ map (fun k => field k (parse_citation short_citation)) storage_keys
     = [Some (PStr "short"); Some (PStr ""); Some (PStr "")].
Proof.
  destruct C1_storage_fields as (Hshort & Hfew & Hstorage).
  split; [| split].
  - apply (Hfew _ "https://short.com"); [reflexivity | simpl; lia].
  - apply (Hstorage _ "doc_pages_3_pages_17.pdf"); reflexivity.
  - apply (Hshort _ "doc.pdf"); reflexivity.
Defined.

(** C2, as the specification states it, fails: a context that is [None]
    makes the test of line 50 raise [TypeError], and a message without the
    attribute [context] makes line 45 raise [AttributeError]; neither line
    stands in a [try]. *)
Lemma C2_null_context_counterexample :
  get_json_serializable_data json_literals (sample_completion (Some PNone))
  = Raise TypeError
  /\ get_json_serializable_data json_literals (sample_completion None)
     = Raise AttributeError.
Proof. split; reflexivity. Qed.

(** C2 at a completion whose context has an intent that is no JSON text,
    a citation without [filepath], one without [url] and one that is
    [None]. *)
Lemma C2_normalizer_returns_witness :
  exists u entries,
    OpenAI.usage (sample_completion (Some (PDict sample_context))) = Some u
    /\ get_json_serializable_data json_literals
         (sample_completion (Some (PDict sample_context)))
       = Ok (data_of (sample_completion (Some (PDict sample_context))) u entries)
    /\ Forall2 (is_entry_of json_literals) [sample_choice (Some (PDict sample_context))]
               entries
    /\ List.length entries = 1.
Proof.
  exact (C2_normalizer_returns json_literals
           (sample_completion (Some (PDict sample_context))) eq_refl).
Defined.

(** C3 at a citation without [filepath], which stays as it is, and at one
    without [url], which gets its pages. *)
Lemma C3_one_try_block_per_citation_witness :
  parse_citation citation_without_filepath = citation_without_filepath
  /\ parse_citation (PDict [("filepath", PStr "doc_pages_3.pdf")])
     = PDict [("filepath", PStr "doc_pages_3.pdf"); ("pages", PList [PStr "3"])].
Proof.
  destruct C3_one_try_block_per_citation as (Hpage & Hurl & _).
  split.
  - apply (Hpage _ (KeyError "filepath")). reflexivity.
  - apply (Hurl [("filepath", PStr "doc_pages_3.pdf")] (PList [PStr "3"])
                (KeyError "url")); reflexivity.
Defined.

(** C4 at the role " UsEr" followed by a line end, and at a role that is
    none of the three. *)
Lemma C4_message_construction_witness :
  EasyChatMessage_init (PStr (" " ++ "UsEr" ++ String (ascii_of_N 10) EmptyString))
                       (PStr "Hello")
  = Ok {| role := "user"; content := PStr "Hello" |}
  /\ EasyChatMessage_init (PStr "tool") (PStr "Hello") = Raise InvalidRole.
Proof.
  destruct C4_message_construction as (Hexact & Hpadded).
  split.
  - apply (Hpadded " " "UsEr" (String (ascii_of_N 10) EmptyString));
      [reflexivity | reflexivity | simpl; auto].
  - destruct (Hexact "tool" (PStr "Hello")) as (_ & _ & Hbad).
    apply Hbad. simpl. intuition discriminate.
Defined.

(** C7 at the second citation of the context of the examples. *)
Lemma C7_pages_of_citation_witness :
  exists data,
    get_json_serializable_data json_literals
      (sample_completion (Some (PDict sample_context))) = Ok data
    /\ at_path [K "choices"; I 0; K "message"; K "context"; K "citations"; I 1;
                K "pages"] data
       = Some (PList [PStr "3"; PStr "17"]).
Proof.
  exact (proj1 (C7_pages_of_citation json_literals
                  (sample_completion (Some (PDict sample_context))) 0 1
                  (sample_choice (Some (PDict sample_context)))
                  sample_context sample_citations paged_citation
                  "doc_pages_3_pages_17.pdf"
                  eq_refl eq_refl eq_refl eq_refl eq_refl eq_refl)).
Defined.

(** C8 at a context whose intent is no JSON text, and at one whose intent
    is the text "true". *)
Lemma C8_intent_of_context_witness :
  (exists data,
      get_json_serializable_data json_literals
        (sample_completion (Some (PDict sample_context))) = Ok data
      /\ at_path [K "choices"; I 0; K "message"; K "context"; K "intent"] data
         = Some (PStr "not json"))
  /\ (exists data,
         get_json_serializable_data json_literals
           (sample_completion (Some (PDict [("intent", PStr "true")]))) = Ok data
         /\ at_path [K "choices"; I 0; K "message"; K "context"; K "intent"] data
            = Some (PBool true)).
Proof.
  split.
  - exact (C8_intent_of_context json_literals
             (sample_completion (Some (PDict sample_context))) 0
             (sample_choice (Some (PDict sample_context))) sample_context
             eq_refl eq_refl eq_refl).
  - exact (C8_intent_of_context json_literals
             (sample_completion (Some (PDict [("intent", PStr "true")]))) 0
             (sample_choice (Some (PDict [("intent", PStr "true")])))
             [("intent", PStr "true")]
             eq_refl eq_refl eq_refl).
Defined.

(** C9 at a dictionary with two entries, and at one whose second role is
    not valid. *)
Lemma C9_dict_to_chat_messages_witness :
  dict_to_chat_messages sample_messages
  = Ok [{| role := "system"; content := PStr "Be brief." |};
        {| role := "user"; content := PStr "Hello" |}]
  /\ dict_to_chat_messages
       [("messages",
          PList [PDict [("role", PStr "user"); ("content", PStr "Hello")];
                 PDict [("role", PStr "tool"); ("content", PNone)]])]
     = Raise InvalidRole
  /\ dict_to_chat_messages [("message", PList [])] = Ok [].
Proof.
  split; [| split].
  - exact (proj2 (C9_dict_to_chat_messages sample_messages)
             [PDict [("role", PStr "System"); ("content", PStr "Be brief.")];
              PDict [("role", PStr " user "); ("content", PStr "Hello")]]
             [(PStr "System", PStr "Be brief."); (PStr " user ", PStr "Hello")]
             eq_refl eq_refl).
  - exact (proj2 (C9_dict_to_chat_messages
                    [("messages",
                       PList [PDict [("role", PStr "user"); ("content", PStr "Hello")];
                              PDict [("role", PStr "tool"); ("content", PNone)]])])
             [PDict [("role", PStr "user"); ("content", PStr "Hello")];
              PDict [("role", PStr "tool"); ("content", PNone)]]
             [(PStr "user", PStr "Hello"); (PStr "tool", PNone)]
             eq_refl eq_refl).
  - exact (proj1 (C9_dict_to_chat_messages [("message", PList [])]) eq_refl).
Defined.

(** C10 at a client built from the environment of the examples: its
    filter is empty, and a number given as filter is stored as its text. *)
Lemma C10_search_filter_witness :
  EasyChatClient_init sample_getenv None None None None None None None
  = Ok sample_client
  /\ getSearchFilter sample_client = ""
  /\ getSearchFilter (setSearchFilter sample_client (PInt 42)) = "42"
  /\ getSearchFilter (setSearchFilter sample_client (PStr "year eq 2024"))
     = "year eq 2024".
Proof.
  destruct C10_search_filter as (Hset & Hstr & Hinit & _).
  split; [reflexivity |]. split; [| split].
  - apply (Hinit sample_getenv None None None None None None None). reflexivity.
  - rewrite Hset. reflexivity.
  - apply Hstr.
Defined.

(* ================================================================== *)
(** * More on dictionaries *)
(* ================================================================== *)

Lemma dict_set_same_value (k : string) (v : pyval) (d : dict) :
  dict_get k d = Some v -> dict_set k v d = d.
Proof.
  induction d as [| [k' v'] d IH]; simpl; [discriminate |].
  destruct (String.eqb k k') eqn:E.
  - apply String.eqb_eq in E. subst k'. now intros [= ->].
  - intros H. now rewrite (IH H).
Qed.

Lemma dict_has_set (k k' : string) (v : pyval) (d : dict) :
  dict_has k d = true -> dict_has k (dict_set k' v d) = true.
Proof.
  unfold dict_has. intros H.
  destruct (String.eqb_spec k' k) as [-> | Hne].
  - now rewrite dict_get_set_same.
  - now rewrite dict_get_set_other.
Qed.

(** Writing a key keeps the keys that are there where they are, and puts
    a new key behind them. *)
Lemma keys_dict_set (k : string) (v : pyval) (d : dict) :
  keys (dict_set k v d) = if dict_has k d then keys d else keys d ++ [k].
Proof.
  unfold keys, dict_has.
  induction d as [| [k' v'] d IH]; simpl; [reflexivity |].
  destruct (String.eqb k k') eqn:E; simpl.
  - apply String.eqb_eq in E. now subst.
  - rewrite IH. now destruct (dict_get k d).
Qed.

(* ================================================================== *)
(** * The [try] block on one citation, as a whole *)
(* ================================================================== *)

Lemma parse_citation_eq (citation : pyval) :
  parse_citation citation = citation_parsed citation.
Proof.
  destruct (page_step citation) as [pages | e] eqn:Hp.
  - destruct (page_step_dict _ _ Hp) as (d & fp & -> & Hfp & ->).
    rewrite (parse_citation_pages_set _ _ Hp).
    unfold citation_parsed, url_step. rewrite Hfp. cbn [py_getitem].
    destruct (dict_get "url" d) as [u |]; cbn [bind]; [| reflexivity].
    destruct u; reflexivity.
  - rewrite (parse_citation_page_step_raises _ _ Hp).
    unfold citation_parsed.
    destruct citation as [| | | | | | d]; try reflexivity.
    unfold page_step in Hp. cbn [py_getitem] in Hp.
    destruct (dict_get "filepath" d) as [v |]; [| reflexivity].
    destruct v; try reflexivity. discriminate Hp.
Qed.

Lemma with_storage_fields_fixed (name container blob : string) (d : dict) :
  map (fun k => dict_get k d) storage_keys
  = [Some (PStr name); Some (PStr container); Some (PStr blob)] ->
  with_storage_fields (Some (name, container, blob)) d = d.
Proof.
  unfold storage_keys. cbn [map]. intros [= Hn Hc Hb].
  unfold with_storage_fields.
  rewrite (dict_set_same_value _ _ _ Hn).
  rewrite (dict_set_same_value _ _ _ Hc).
  now rewrite (dict_set_same_value _ _ _ Hb).
Qed.

Lemma with_storage_fields_idem (fields : option (string * string * string)) (d : dict) :
  with_storage_fields fields (with_storage_fields fields d)
  = with_storage_fields fields d.
Proof.
  destruct fields as [[[name container] blob] |]; [| reflexivity].
  apply with_storage_fields_fixed. apply with_storage_fields_some.
Qed.

Lemma storage_key_not_pages (k : string) : In k storage_keys -> k <> "pages".
Proof.
  unfold storage_keys; simpl. intuition (subst; discriminate).
Qed.

Lemma citation_parsed_other (citation : pyval) (k : string) :
  k <> "pages" -> ~ In k storage_keys ->
  field k (citation_parsed citation) = field k citation.
Proof.
  intros Hp Hs. unfold citation_parsed.
  destruct citation as [| | | | | | d]; try reflexivity.
  destruct (dict_get "filepath" d) as [[] |]; try reflexivity.
  assert (H1 : dict_get k (dict_set "pages"
                 (PList (map PStr (PyStr.re_findall_pages s))) d) = dict_get k d)
    by (apply dict_get_set_other; congruence).
  destruct (dict_get "url" d) as [[] |]; cbn [field]; try exact H1.
  now rewrite with_storage_fields_other.
Qed.

Lemma not_storage_key (k : string) :
  k = "filepath" \/ k = "url" \/ k = "pages" -> ~ In k storage_keys.
Proof.
  unfold storage_keys; simpl. intuition (subst; discriminate).
Qed.

Lemma citation_parsed_idem (citation : pyval) :
  citation_parsed (citation_parsed citation) = citation_parsed citation.
Proof.
  destruct citation as [| | | | | | d]; try reflexivity.
  unfold citation_parsed.
  destruct (dict_get "filepath" d) as [v |] eqn:Hfp; [| now rewrite Hfp].
  destruct v as [| | | | fp | |]; try now rewrite Hfp.
  cbv zeta.
  set (pages := PList (map PStr (PyStr.re_findall_pages fp))).
  assert (Hplain :
            match dict_get "filepath" (dict_set "pages" pages d) with
            | Some (PStr fp0) =>
                match dict_get "url" d with
                | Some (PStr url) =>
                    PDict (with_storage_fields (storage_fields_of url)
                             (dict_set "pages"
                                (PList (map PStr (PyStr.re_findall_pages fp0)))
                                (dict_set "pages" pages d)))
                | _ =>
                    PDict (dict_set "pages"
                             (PList (map PStr (PyStr.re_findall_pages fp0)))
                             (dict_set "pages" pages d))
                end
            | _ => PDict (dict_set "pages" pages d)
            end
            = PDict (match dict_get "url" d with
                     | Some (PStr url) =>
                         with_storage_fields (storage_fields_of url)
                           (dict_set "pages" pages d)
                     | _ => dict_set "pages" pages d
                     end)).
  { rewrite dict_get_set_other by discriminate. rewrite Hfp. fold pages.
    rewrite (dict_set_same_value _ _ _ (dict_get_set_same "pages" pages d)).
    destruct (dict_get "url" d) as [[] |]; reflexivity. }
  destruct (dict_get "url" d) as [u |] eqn:Hu.
  - destruct u as [| | | | url | |];
      try (rewrite (dict_get_set_other "pages" "url") by discriminate;
           rewrite Hu; exact Hplain).
    rewrite 2 with_storage_fields_other
      by (apply not_storage_key; auto).
    rewrite 2 dict_get_set_other by discriminate.
    rewrite Hfp, Hu. fold pages.
    assert (Hpg : dict_get "pages"
                    (with_storage_fields (storage_fields_of url)
                       (dict_set "pages" pages d))
                  = Some pages).
    { rewrite with_storage_fields_other by (apply not_storage_key; auto).
      apply dict_get_set_same. }
    rewrite (dict_set_same_value _ _ _ Hpg).
    now rewrite with_storage_fields_idem.
  - rewrite (dict_get_set_other "pages" "url") by discriminate.
    rewrite Hu. exact Hplain.
Qed.

Lemma keys_dict_set_app (k : string) (v : pyval) (d : dict) :
  exists extra, keys (dict_set k v d) = keys d ++ extra /\ incl extra [k].
Proof.
  rewrite keys_dict_set. destruct (dict_has k d).
  - exists []. rewrite app_nil_r. split; [reflexivity | apply incl_nil_l].
  - exists [k]. split; [reflexivity | apply incl_refl].
Qed.

Lemma keys_with_storage_fields (fields : option (string * string * string)) (d : dict) :
  exists extra,
    keys (with_storage_fields fields d) = keys d ++ extra /\ incl extra storage_keys.
Proof.
  destruct fields as [[[name container] blob] |].
  - unfold with_storage_fields.
    destruct (keys_dict_set_app "storageaccount_name" (PStr name) d) as (e1 & H1 & I1).
    destruct (keys_dict_set_app "storageaccount_container" (PStr container)
                (dict_set "storageaccount_name" (PStr name) d)) as (e2 & H2 & I2).
    destruct (keys_dict_set_app "storageaccount_blob" (PStr blob)
                (dict_set "storageaccount_container" (PStr container)
                   (dict_set "storageaccount_name" (PStr name) d))) as (e3 & H3 & I3).
    exists (e1 ++ e2 ++ e3). split.
    + rewrite H3, H2, H1. now rewrite <- !app_assoc.
    + unfold storage_keys. intros k Hk.
      apply in_app_or in Hk as [Hk | Hk]; [apply I1 in Hk |
        apply in_app_or in Hk as [Hk | Hk]; [apply I2 in Hk | apply I3 in Hk]];
        simpl in *; intuition.
  - exists []. simpl. rewrite app_nil_r. split; [reflexivity | apply incl_nil_l].
Qed.

Lemma dict_has_get (k : string) (d : dict) :
  dict_has k d = true <-> dict_get k d <> None.
Proof.
  unfold dict_has. destruct (dict_get k d); split; congruence.
Qed.

Lemma dict_has_with_storage_fields (k : string)
  (fields : option (string * string * string)) (d : dict) :
  dict_has k d = true -> dict_has k (with_storage_fields fields d) = true.
Proof.
  intros H. destruct fields as [[[name container] blob] |]; [| exact H].
  unfold with_storage_fields. now do 3 apply dict_has_set.
Qed.

Lemma citation_parsed_has (citation : pyval) (k : string) :
  field k citation <> None -> field k (citation_parsed citation) <> None.
Proof.
  intros Hk. unfold citation_parsed.
  destruct citation as [| | | | | | d]; try assumption.
  destruct (dict_get "filepath" d) as [v |]; [| assumption].
  destruct v as [| | | | fp | |]; try assumption.
  cbv zeta. cbn [field] in Hk. apply dict_has_get in Hk.
  set (pages := PList (map PStr (PyStr.re_findall_pages fp))).
  pose proof (dict_has_set k "pages" pages d Hk) as H1.
  destruct (dict_get "url" d) as [u |]; [| now apply dict_has_get].
  destruct u as [| | | | url | |]; try now apply dict_has_get.
  cbn [field]. apply dict_has_get. now apply dict_has_with_storage_fields.
Qed.

(** X1: the [try] block of a citation changes nothing but the fields
    [pages] and the three storage fields: every other field keeps its
    value, no field is lost, the keys that were there keep their order
    and new keys come behind them, and a citation that is no dictionary
    stays as it is. *)
Theorem citation_other_fields_kept (citation : pyval) :
  (forall k, k <> "pages" -> ~ In k storage_keys ->
             field k (parse_citation citation) = field k citation)
  /\ (forall k, field k citation <> None -> field k (parse_citation citation) <> None)
  /\ ((forall d, citation <> PDict d) -> parse_citation citation = citation)
  /\ (forall d, citation = PDict d ->
                exists d' extra,
                  parse_citation citation = PDict d'
                  /\ keys d' = keys d ++ extra
                  /\ incl extra ("pages" :: storage_keys)).
Proof.
  rewrite parse_citation_eq.
  split; [| split; [| split]].
  - intros k Hp Hs. now apply citation_parsed_other.
  - intros k Hk. now apply citation_parsed_has.
  - intros Hnd. unfold citation_parsed.
    destruct citation; try reflexivity. now elim (Hnd d).
  - intros d ->. unfold citation_parsed.
    destruct (dict_get "filepath" d) as [v |].
    2: { exists d, []. rewrite app_nil_r. repeat split; auto. apply incl_nil_l. }
    destruct v as [| | | | fp | |];
      try (exists d, []; rewrite app_nil_r; repeat split; auto; apply incl_nil_l).
    cbv zeta.
    set (pages := PList (map PStr (PyStr.re_findall_pages fp))).
    destruct (keys_dict_set_app "pages" pages d) as (e1 & H1 & I1).
    assert (Hplain : exists d' extra,
               PDict (dict_set "pages" pages d) = PDict d'
               /\ keys d' = keys d ++ extra /\ incl extra ("pages" :: storage_keys)).
    { exists (dict_set "pages" pages d), e1. repeat split; auto.
      intros k Hk. apply I1 in Hk. simpl in Hk. simpl. intuition. }
    destruct (dict_get "url" d) as [u |]; [| exact Hplain].
    destruct u as [| | | | url | |]; try exact Hplain.
    destruct (keys_with_storage_fields (storage_fields_of url)
                (dict_set "pages" pages d)) as (e2 & H2 & I2).
    eexists _, (e1 ++ e2). split; [reflexivity |]. split.
    + rewrite H2, H1. now rewrite app_assoc.
    + intros k Hk. apply in_app_or in Hk as [Hk | Hk].
      * apply I1 in Hk. simpl in Hk. simpl. intuition.
      * right. now apply I2.
Qed.

Lemma dict_set_set (k : string) (v v' : pyval) (d : dict) :
  dict_set k v (dict_set k v' d) = dict_set k v d.
Proof.
  induction d as [| [k0 v0] d IH]; simpl.
  - now rewrite String.eqb_refl.
  - destruct (String.eqb k k0) eqn:E; simpl.
    + now rewrite String.eqb_refl.
    + now rewrite E, IH.
Qed.

Lemma citations_parsed_idem (d : dict) :
  citations_parsed (citations_parsed d) = citations_parsed d.
Proof.
  unfold citations_parsed.
  destruct (dict_get "citations" d) as [v |] eqn:Hc; [| now rewrite Hc].
  destruct v as [| | | | | l |]; try now rewrite Hc.
  rewrite dict_get_set_same, dict_set_set, map_map.
  do 2 f_equal. apply map_ext. intros c.
  rewrite !parse_citation_eq. apply citation_parsed_idem.
Qed.

(** A context that is no dictionary passes lines 56 to 67 as it is, or
    makes them raise. *)
Lemma parse_citations_not_dict (ctx ctx' : pyval) :
  (forall d, ctx <> PDict d) -> parse_citations ctx = Ok ctx' -> ctx' = ctx.
Proof.
  intros Hnd. unfold parse_citations.
  destruct ctx as [| | | | s | l | d]; try discriminate; cbn [py_contains bind].
  - destruct (PyStr.contains "citations" s); cbn [py_getitem bind]; [discriminate |].
    now intros [= <-].
  - destruct (existsb (is_str_eq "citations") l); cbn [py_getitem bind]; [discriminate |].
    now intros [= <-].
  - now elim (Hnd d).
Qed.

Lemma parse_citations_not_dict_again (ctx ctx' : pyval) :
  (forall d, ctx <> PDict d) -> parse_citations ctx = Ok ctx' ->
  parse_citations ctx' = Ok ctx'.
Proof.
  intros Hnd H. pose proof (parse_citations_not_dict _ _ Hnd H) as Heq.
  subst ctx'. exact H.
Qed.

Section Twice.

Variable json_loads : string -> option pyval.

Lemma intent_parsed_settled (d : dict) :
  intent_settled json_loads d ->
  intent_parsed json_loads (intent_parsed json_loads d) = intent_parsed json_loads d.
Proof.
  intros Hs. unfold intent_parsed at 2 3.
  destruct (dict_get "intent" d) as [v |] eqn:Hi.
  2: { unfold intent_parsed. now rewrite Hi. }
  destruct v as [| | | | s | |]; try (unfold intent_parsed; now rewrite Hi).
  destruct (json_loads s) as [x |] eqn:Hx.
  2: { unfold intent_parsed. now rewrite Hi, Hx. }
  unfold intent_parsed. rewrite dict_get_set_same.
  destruct x as [| | | | s' | |]; try reflexivity.
  now rewrite (Hs s (PStr s') s' Hi Hx eq_refl).
Qed.

(** X2: when the normaliser meets a context a second time, as it does
    when it is called again on a completion that it has changed in place,
    nothing changes any more in the citations: the [try] block leaves a
    citation that it has parsed as it is, and so do lines 56 to 67 the
    context.  The intent stays as well, unless the parsed intent is itself
    a text that [json.loads] accepts. *)
Theorem parsing_twice_changes_nothing :
  (forall citation, parse_citation (parse_citation citation) = parse_citation citation)
  /\ (forall ctx ctx', parse_citations ctx = Ok ctx' -> parse_citations ctx' = Ok ctx')
  /\ (forall d ctx',
         intent_settled json_loads d ->
         parse_intent json_loads (PDict d) = Ok ctx' ->
         parse_intent json_loads ctx' = Ok ctx').
Proof.
  split; [| split].
  - intros citation. rewrite !parse_citation_eq. apply citation_parsed_idem.
  - intros ctx ctx' H.
    destruct ctx as [| | | | s | l | d];
      try (refine (parse_citations_not_dict_again _ _ _ H); discriminate).
    rewrite parse_citations_dict in H. injection H as <-.
    rewrite parse_citations_dict. now rewrite citations_parsed_idem.
  - intros d ctx' Hs H.
    rewrite parse_intent_dict in H. injection H as <-.
    rewrite parse_intent_dict. now rewrite intent_parsed_settled.
Qed.

End Twice.

(** X3: the three storage fields are written together or not at all: a
    citation either keeps the storage fields it had, or it is a
    dictionary whose [filepath] and [url] are strings, the url starts
    with "http" in any case and has four segments or more, and all three
    fields hold what the url gives. *)
Theorem storage_fields_all_or_none (citation : pyval) :
  adds_no_storage_field citation
  \/ exists d fp url name container blob,
       citation = PDict d
       /\ dict_get "filepath" d = Some (PStr fp)
       /\ dict_get "url" d = Some (PStr url)
       /\ PyStr.startswith (PyStr.lower url) "http" = true
       /\ 4 <= List.length (PyStr.split "/" url)
       /\ storage_fields_of url = Some (name, container, blob)
       /\ map (fun k => field k (parse_citation citation)) storage_keys
          = [Some (PStr name); Some (PStr container); Some (PStr blob)].
Proof.
  assert (Hsame : parse_citation citation = citation -> adds_no_storage_field citation).
  { intros H k _. now rewrite H. }
  destruct citation as [| | | | | | d];
    try (left; apply Hsame; rewrite parse_citation_eq; reflexivity).
  destruct (dict_get "filepath" d) as [v |] eqn:Hfp.
  2: { left. apply Hsame. rewrite parse_citation_eq. unfold citation_parsed.
       now rewrite Hfp. }
  destruct v as [| | | | fp | |];
    try (left; apply Hsame; rewrite parse_citation_eq; unfold citation_parsed;
         now rewrite Hfp).
  destruct (dict_get "url" d) as [u |] eqn:Hu.
  2: { left. apply no_storage_fields_of_added. cbn [field]. intros url H. congruence. }
  destruct u as [| | | | url | |];
    try (left; apply no_storage_fields_of_added; cbn [field]; intros url' H; congruence).
  destruct (storage_fields_of url) as [[[name container] blob] |] eqn:Hs.
  2: { left. apply no_storage_fields_of_added. cbn [field]. intros url' H.
       rewrite Hu in H. now injection H as <-. }
  right. exists d, fp, url, name, container, blob.
  repeat split; try assumption.
  - unfold storage_fields_of in Hs.
    now destruct (PyStr.startswith (PyStr.lower url) "http").
  - unfold storage_fields_of in Hs.
    destruct (PyStr.startswith (PyStr.lower url) "http"); [| discriminate].
    cbv zeta in Hs.
    destruct (Nat.leb 4 (List.length (PyStr.split "/" url))) eqn:E; [| discriminate].
    now apply Nat.leb_le.
  - rewrite (parse_citation_filepath_url _ _ _ Hfp Hu), Hs. cbn [field].
    apply with_storage_fields_some.
Qed.

Lemma Findall_pages (s : string) (l : list string) :
  Pages.Findall s l ->
  Forall is_page l /\ 8 * List.length l <= String.length s.
Proof.
  induction 1 as [| s ds rest l Hm _ [IH1 IH2] | c s l _ _ [IH1 IH2]].
  - split; [constructor | simpl; lia].
  - pose proof (PagesFacts.match_at_head_length _ _ _ Hm) as Hlen.
    destruct Hm as [ds rest Hne Hds _].
    split.
    + constructor; [split; assumption | assumption].
    + destruct ds as [| c ds]; [congruence |].
      simpl in *. lia.
  - split; [assumption | simpl; lia].
Qed.

(** X4: the pages that line 59 stores are texts of decimal digits, one
    digit at least each, so each of them reads as a number; and a
    [filepath] of [n] characters gives [n / 8] pages at most, because the
    matches do not overlap and the shortest match has eight characters. *)
Theorem pages_are_numbers (citation : pyval) (fp : string) :
  field "filepath" citation = Some (PStr fp) ->
  exists pages,
    field "pages" (parse_citation citation) = Some (PList (map PStr pages))
    /\ Forall is_page pages
    /\ 8 * List.length pages <= String.length fp.
Proof.
  intros Hfp. exists (PyStr.re_findall_pages fp).
  split; [now apply parse_citation_pages |].
  apply Findall_pages. apply PagesFacts.Findall_re_findall_pages.
Qed.

(** X4 at a citation with the pages 3 and 17. *)
Lemma pages_are_numbers_witness :
  exists pages,
    field "pages" (parse_citation paged_citation) = Some (PList (map PStr pages))
    /\ Forall is_page pages
    /\ 8 * List.length pages <= 24.
Proof.
  exact (pages_are_numbers paged_citation "doc_pages_3_pages_17.pdf" eq_refl).
Defined.

(* ================================================================== *)
(** * The parts of a url *)
(* ================================================================== *)

Module UrlFacts.

Import PyStr.

















End UrlFacts.




(* ================================================================== *)
(** * When the normaliser returns *)
(* ================================================================== *)

Lemma comprehension_ok {A B : Type} (f : A -> result B) (l : list A) :
  (exists l', comprehension f l = Ok l') <-> Forall (fun a => exists b, f a = Ok b) l.
Proof.
  induction l as [| a l IH]; cbn [comprehension].
  - split; [constructor | eauto].
  - split.
    + intros [l' H].
      destruct (f a) as [b |] eqn:Ea; [| discriminate].
      cbn [bind] in H.
      destruct (comprehension f l) as [bs |]; [| discriminate].
      constructor; [eauto | apply IH; eauto].
    + intros H. inversion H as [| a' l0 [b Hb] Hl]; subst.
      apply IH in Hl as [bs Hbs]. rewrite Hb, Hbs. cbn [bind]. eauto.
Qed.

Lemma comprehension_raise {A B : Type} (f : A -> result B) (l : list A) (e : exn) :
  comprehension f l = Raise e -> exists a, In a l /\ f a = Raise e.
Proof.
  induction l as [| a l IH]; cbn [comprehension]; [discriminate |].
  destruct (f a) as [b |] eqn:Ea; cbn [bind].
  - destruct (comprehension f l) as [bs |]; cbn [bind]; [discriminate |].
    intros [= ->]. destruct (IH eq_refl) as (a' & Hin & Ha').
    exists a'. split; [now right | assumption].
  - intros [= ->]. exists a. split; [now left | assumption].
Qed.

Section Acceptance.

Variable json_loads : string -> option pyval.

(** Lines 50 to 67 on any context. *)
Lemma context_steps (ctx : pyval) :
  (ctx1 <- parse_intent json_loads ctx ;; parse_citations ctx1)
  = if context_accepted ctx
    then Ok (match ctx with
             | PDict d => PDict (citations_parsed (intent_parsed json_loads d))
             | _ => ctx
             end)
    else Raise TypeError.
Proof.
  destruct ctx as [| | | | s | l | d]; try reflexivity.
  - unfold parse_intent, parse_citations, context_accepted.
    cbn [py_contains bind].
    destruct (PyStr.contains "intent" s); cbn [py_getitem bind negb andb];
      [reflexivity |].
    cbn [py_contains bind].
    destruct (PyStr.contains "citations" s); reflexivity.
  - unfold parse_intent, parse_citations, context_accepted.
    cbn [py_contains bind].
    destruct (existsb (is_str_eq "intent") l); cbn [py_getitem bind negb andb];
      [reflexivity |].
    cbn [py_contains bind].
    destruct (existsb (is_str_eq "citations") l); reflexivity.
  - rewrite parse_intent_dict. cbn [bind]. now rewrite parse_citations_dict.
Qed.

Lemma choice_entry_steps (choice : OpenAI.Choice) :
  choice_entry json_loads choice
  = (end_turn <- OpenAI.attr (OpenAI.end_turn (OpenAI.message choice)) ;;
     context <- OpenAI.attr (OpenAI.context (OpenAI.message choice)) ;;
     context <- (ctx1 <- parse_intent json_loads context ;; parse_citations ctx1) ;;
     Ok (PDict [("finish_reason", OpenAI.finish_reason choice);
                ("index", OpenAI.index choice);
                ("message",
                  PDict [("refusal", OpenAI.refusal (OpenAI.message choice));
                         ("role", OpenAI.role (OpenAI.message choice));
                         ("content", OpenAI.content (OpenAI.message choice));
                         ("end_turn", end_turn);
                         ("context", context)])])).
Proof.
  unfold choice_entry.
  destruct (OpenAI.attr (OpenAI.end_turn (OpenAI.message choice))); [| reflexivity].
  destruct (OpenAI.attr (OpenAI.context (OpenAI.message choice))) as [ctx |];
    [| reflexivity].
  cbn [bind]. destruct (parse_intent json_loads ctx); reflexivity.
Qed.

Lemma choice_entry_accepted (choice : OpenAI.Choice) :
  (exists entry, choice_entry json_loads choice = Ok entry)
  <-> choice_accepted choice = true.
Proof.
  rewrite choice_entry_steps. unfold choice_accepted.
  destruct (OpenAI.end_turn (OpenAI.message choice)) as [et |]; cbn [OpenAI.attr bind].
  2: { split; [intros [? H]; discriminate | discriminate]. }
  destruct (OpenAI.context (OpenAI.message choice)) as [ctx |]; cbn [OpenAI.attr bind].
  2: { split; [intros [? H]; discriminate | discriminate]. }
  rewrite context_steps.
  destruct (context_accepted ctx); cbn [bind].
  - split; eauto.
  - split; [intros [? H]; discriminate | discriminate].
Qed.

Lemma choice_entry_raises (choice : OpenAI.Choice) (e : exn) :
  choice_entry json_loads choice = Raise e -> e = AttributeError \/ e = TypeError.
Proof.
  rewrite choice_entry_steps.
  destruct (OpenAI.end_turn (OpenAI.message choice)) as [et |]; cbn [OpenAI.attr bind].
  2: { intros [= <-]. now left. }
  destruct (OpenAI.context (OpenAI.message choice)) as [ctx |]; cbn [OpenAI.attr bind].
  2: { intros [= <-]. now left. }
  rewrite context_steps.
  destruct (context_accepted ctx); cbn [bind]; [discriminate |].
  intros [= <-]. now right.
Qed.

Lemma choice_entry_context_kept (choice : OpenAI.Choice) (ctx entry : pyval) :
  OpenAI.context (OpenAI.message choice) = Some ctx ->
  (forall d, ctx <> PDict d) ->
  choice_entry json_loads choice = Ok entry ->
  at_path [K "message"; K "context"] entry = Some ctx.
Proof.
  intros Hc Hnd. rewrite choice_entry_steps, Hc.
  destruct (OpenAI.end_turn (OpenAI.message choice)) as [et |]; cbn [OpenAI.attr bind];
    [| discriminate].
  rewrite context_steps.
  destruct (context_accepted ctx); cbn [bind]; [| discriminate].
  intros [= <-].
  destruct ctx; try reflexivity. now elim (Hnd d).
Qed.

Lemma get_json_serializable_data_accepted (completion : OpenAI.ChatCompletion) :
  (exists data, get_json_serializable_data json_loads completion = Ok data)
  <-> accepted completion = true.
Proof.
  rewrite get_json_serializable_data_eq. unfold accepted.
  destruct (OpenAI.usage completion) as [u |]; cbn [OpenAI.attr bind].
  2: { split; [intros [? H]; discriminate | discriminate]. }
  rewrite forallb_forall.
  split.
  - intros [data H] choice Hin.
    destruct (comprehension (choice_entry json_loads) (OpenAI.choices completion))
      as [entries |] eqn:He; [| discriminate].
    assert (Hall : exists l', comprehension (choice_entry json_loads)
                                (OpenAI.choices completion) = Ok l') by eauto.
    apply comprehension_ok in Hall. rewrite Forall_forall in Hall.
    apply choice_entry_accepted. now apply Hall.
  - intros Hall.
    assert (Hok : exists l', comprehension (choice_entry json_loads)
                               (OpenAI.choices completion) = Ok l').
    { apply comprehension_ok. apply Forall_forall. intros choice Hin.
      apply choice_entry_accepted. now apply Hall. }
    destruct Hok as [entries ->]. cbn [bind]. eauto.
Qed.

(** X6: the normaliser returns exactly for the completions whose [usage]
    is there and whose messages all have [end_turn] and a context that is
    a dictionary, or a list without the items "intent" and "citations", or
    a string without these two words; what [json.loads] does has no part
    in it.  When it raises, the error is an [AttributeError] or a
    [TypeError], never one of parsing.  A context that is no dictionary is
    in the result as it was. *)
Theorem normalizer_returns_iff (completion : OpenAI.ChatCompletion) :
  ((exists data, get_json_serializable_data json_loads completion = Ok data)
   <-> accepted completion = true)
  /\ (forall e, get_json_serializable_data json_loads completion = Raise e ->
                e = AttributeError \/ e = TypeError)
  /\ (forall data i choice ctx,
         get_json_serializable_data json_loads completion = Ok data ->
         nth_error (OpenAI.choices completion) i = Some choice ->
         OpenAI.context (OpenAI.message choice) = Some ctx ->
         (forall d, ctx <> PDict d) ->
         at_path [K "choices"; I i; K "message"; K "context"] data = Some ctx).
Proof.
  split; [apply get_json_serializable_data_accepted |].
  rewrite get_json_serializable_data_eq.
  destruct (OpenAI.usage completion) as [u |]; cbn [OpenAI.attr bind].
  2: { split; [| discriminate]. intros e [= <-]. now left. }
  split.
  - intros e H.
    destruct (comprehension (choice_entry json_loads) (OpenAI.choices completion))
      as [entries |] eqn:He; [discriminate |].
    cbn [bind] in H. injection H as <-.
    apply comprehension_raise in He as (choice & _ & Hc).
    now apply choice_entry_raises in Hc.
  - intros data i choice ctx H Hn Hc Hnd.
    destruct (comprehension (choice_entry json_loads) (OpenAI.choices completion))
      as [entries |] eqn:He; [| discriminate].
    cbn [bind] in H. injection H as <-.
    destruct (comprehension_nth json_loads _ _ _ _ He Hn) as (entry & Hentry & Hce).
    unfold data_of. cbn [at_path dict_get String.eqb Ascii.eqb Bool.eqb].
    rewrite Hentry.
    exact (choice_entry_context_kept _ _ _ Hc Hnd Hce).
Qed.

End Acceptance.

(* ================================================================== *)
(** * The client that [__init__] builds *)
(* ================================================================== *)

Lemma or_default_resolved (getenv : string -> option string)
  (explicit : option string) (name default : string) :
  setting_resolved getenv explicit name default
    (or_default (or_getenv getenv explicit name) default).
Proof.
  unfold setting_resolved, or_default, or_getenv.
  repeat split.
  - intros s -> Hs. apply String.eqb_neq in Hs. now rewrite Hs.
  - now intros ->.
  - intros s -> -> Hs. apply String.eqb_neq in Hs. now rewrite Hs.
  - intros -> [-> | ->]; reflexivity.
Qed.

Lemma or_default_not_empty (x : option string) (default : string) :
  default <> "" -> or_default x default <> "".
Proof.
  intros Hd. unfold or_default.
  destruct x as [s |]; [| assumption].
  destruct (String.eqb_spec s ""); assumption.
Qed.

Lemma append_not_empty (a b : string) : b <> "" -> (a ++ b)%string <> "".
Proof.
  intros Hb. destruct a; simpl; [assumption | discriminate].
Qed.

(** What a successful [__init__] has seen and what it returns. *)
Lemma EasyChatClient_init_ok (getenv : string -> option string)
  (client : option AzureOpenAI)
  (deployment embedding base index_name key semantic : option string)
  (self : EasyChatClient) :
  EasyChatClient_init getenv client deployment embedding base index_name key semantic
  = Ok self ->
  exists c b,
    match client with Some c' => Some c' | None => client_of_env getenv end = Some c
    /\ or_getenv getenv base "AZURESEARCH_API_BASE" = Some b
    /\ b <> ""
    /\ self =
       let index :=
         or_default (or_getenv getenv index_name "AZURESEARCH_INDEX_NAME") "documents" in
       {| _open_ai_client := c;
          _open_ai_deployment_name :=
            or_default (or_getenv getenv deployment "OPENAI_DEPLOYMENT_NAME") "gpt-4o";
          _open_ai_embedding_deployment_name :=
            or_default (or_getenv getenv embedding "OPENAI_EMBEDDING_DEPLOYMENT_NAME")
                       "text-embedding-ada-002";
          _azure_search_api_base := b;
          _azure_search_api_key := search_key_of getenv key;
          _azure_search_index_name := index;
          _semantic_configuration :=
            or_default semantic (index ++ "-semantic-configuration");
          _filter := "" |}.
Proof.
  unfold EasyChatClient_init, client_of_env.
  intros H.
  assert (Hc : exists c,
             match client with
             | Some c' => Some c'
             | None =>
                 match getenv "OPENAI_API_BASE" with
                 | None => None
                 | Some b0 =>
                     if String.eqb b0 "" then None
                     else Some {| azure_endpoint := b0;
                                  azure_credential :=
                                    match getenv "OPENAI_API_KEY" with
                                    | None =>
                                        azure_ad_token_provider
                                          "https://cognitiveservices.azure.com/.default"
                                    | Some key0 => api_key key0
                                    end;
                                  api_version := "2024-02-01" |}
                 end
             end = Some c
             /\ match client with
                | Some client0 => Ok client0
                | None =>
                    match getenv "OPENAI_API_BASE" with
                    | None => Raise (ValueError "OPENAI_API_BASE is required")
                    | Some b0 =>
                        if String.eqb b0 ""
                        then Raise (ValueError "OPENAI_API_BASE is required")
                        else
                          match getenv "OPENAI_API_KEY" with
                          | None =>
                              Ok {| azure_endpoint := b0;
                                    azure_credential :=
                                      azure_ad_token_provider
                                        "https://cognitiveservices.azure.com/.default";
                                    api_version := "2024-02-01" |}
                          | Some key0 =>
                              Ok {| azure_endpoint := b0;
                                    azure_credential := api_key key0;
                                    api_version := "2024-02-01" |}
                          end
                    end
                end = Ok c).
  { destruct client as [c |]; [eauto |].
    destruct (getenv "OPENAI_API_BASE") as [b0 |]; [| discriminate].
    destruct (String.eqb b0 ""); [discriminate |].
    destruct (getenv "OPENAI_API_KEY"); eauto. }
  destruct Hc as (c & Hc1 & Hc2).
  rewrite Hc2 in H. cbn [bind] in H.
  destruct (or_getenv getenv base "AZURESEARCH_API_BASE") as [b |]; [| discriminate].
  destruct (String.eqb_spec b ""); [discriminate |].
  injection H as <-.
  exists c, b. repeat split; try assumption.
  unfold search_key_of, or_getenv. now destruct key.
Qed.

Section Init.

Variable getenv : string -> option string.

Lemma init_without_client (client : option AzureOpenAI)
  (deployment embedding base index_name key semantic : option string) :
  match client with Some c => Some c | None => client_of_env getenv end = None ->
  (EasyChatClient_init getenv client deployment embedding base index_name key semantic)
      = Raise (ValueError "OPENAI_API_BASE is required").
Proof.
  unfold EasyChatClient_init, client_of_env.
  destruct client as [c |]; [discriminate |].
  destruct (getenv "OPENAI_API_BASE") as [b |]; [| reflexivity].
  destruct (String.eqb b ""); [reflexivity | discriminate].
Qed.

Lemma init_with_client (client : option AzureOpenAI)
  (deployment embedding base index_name key semantic : option string)
  (c : AzureOpenAI) :
  match client with Some c' => Some c' | None => client_of_env getenv end = Some c ->
  EasyChatClient_init getenv client deployment embedding base index_name key semantic
  = match or_getenv getenv base "AZURESEARCH_API_BASE" with
    | None => Raise (ValueError "AZURESEARCH_API_BASE is required")
    | Some b =>
        if String.eqb b "" then Raise (ValueError "AZURESEARCH_API_BASE is required")
        else
          let index :=
            or_default (or_getenv getenv index_name "AZURESEARCH_INDEX_NAME")
                       "documents" in
          Ok {| _open_ai_client := c;
                _open_ai_deployment_name :=
                  or_default (or_getenv getenv deployment "OPENAI_DEPLOYMENT_NAME")
                             "gpt-4o";
                _open_ai_embedding_deployment_name :=
                  or_default
                    (or_getenv getenv embedding "OPENAI_EMBEDDING_DEPLOYMENT_NAME")
                    "text-embedding-ada-002";
                _azure_search_api_base := b;
                _azure_search_api_key := search_key_of getenv key;
                _azure_search_index_name := index;
                _semantic_configuration :=
                  or_default semantic (index ++ "-semantic-configuration");
                _filter := "" |}
    end.
Proof.
  unfold EasyChatClient_init, client_of_env, search_key_of.
  intros Hc.
  assert (Hres : match client with
                 | Some client0 => Ok client0
                 | None =>
                     match getenv "OPENAI_API_BASE" with
                     | None => Raise (ValueError "OPENAI_API_BASE is required")
                     | Some b0 =>
                         if String.eqb b0 ""
                         then Raise (ValueError "OPENAI_API_BASE is required")
                         else
                           match getenv "OPENAI_API_KEY" with
                           | None =>
                               Ok {| azure_endpoint := b0;
                                     azure_credential :=
                                       azure_ad_token_provider
                                         "https://cognitiveservices.azure.com/.default";
                                     api_version := "2024-02-01" |}
                           | Some key0 =>
                               Ok {| azure_endpoint := b0;
                                     azure_credential := api_key key0;
                                     api_version := "2024-02-01" |}
                           end
                     end
                 end = Ok c).
  { destruct client as [c' |]; [now injection Hc as -> |].
    destruct (getenv "OPENAI_API_BASE") as [b0 |]; [| discriminate].
    destruct (String.eqb b0 ""); [discriminate |].
    destruct (getenv "OPENAI_API_KEY"); now injection Hc as <-. }
  rewrite Hres. cbn [bind].
  destruct (or_getenv getenv base "AZURESEARCH_API_BASE") as [b |]; [| reflexivity].
  destruct (String.eqb b ""); [reflexivity |].
  unfold or_getenv. now destruct key.
Qed.

(** X7: of its own, [__init__] fails in two cases only, each with a
    [ValueError] (the constructors of the libraries are taken to return).
    Without a client as argument and without a chat endpoint in the
    environment (unset or "") it raises "OPENAI_API_BASE is required",
    whatever the other arguments are.  Otherwise, without a search
    endpoint (the argument is "", or it is [None] and the variable is
    unset or "") it raises "AZURESEARCH_API_BASE is required"; an argument
    "" does so even when the variable is set.  In every other case it
    returns a client; with a client as argument the variables of the chat
    service are not read at all. *)
Theorem init_fails_on_missing_endpoints_only (client : option AzureOpenAI)
  (deployment embedding base index_name key semantic : option string) :
  (client = None ->
   getenv "OPENAI_API_BASE" = None \/ getenv "OPENAI_API_BASE" = Some "" ->
   (EasyChatClient_init getenv client deployment embedding base index_name key semantic)
      = Raise (ValueError "OPENAI_API_BASE is required"))
  /\ (match client with Some c => Some c | None => client_of_env getenv end <> None ->
      base = Some ""
      \/ (base = None /\ (getenv "AZURESEARCH_API_BASE" = None
                          \/ getenv "AZURESEARCH_API_BASE" = Some "")) ->
      (EasyChatClient_init getenv client deployment embedding base index_name key semantic)
      = Raise (ValueError "AZURESEARCH_API_BASE is required"))
  /\ (forall c b,
         client = Some c ->
         or_getenv getenv base "AZURESEARCH_API_BASE" = Some b -> b <> "" ->
         exists self, (EasyChatClient_init getenv client deployment embedding base index_name key semantic)
      = Ok self /\ _open_ai_client self = c)
  /\ ((exists self, (EasyChatClient_init getenv client deployment embedding base index_name key semantic)
      = Ok self)
      <-> (match client with Some c => Some c | None => client_of_env getenv end <> None
           /\ exists b, or_getenv getenv base "AZURESEARCH_API_BASE" = Some b /\ b <> ""))
  /\ (forall e, (EasyChatClient_init getenv client deployment embedding base index_name key semantic)
      = Raise e ->
                e = ValueError "OPENAI_API_BASE is required"
                \/ e = ValueError "AZURESEARCH_API_BASE is required").
Proof.
  split; [| split; [| split; [| split]]].
  - intros -> H. apply init_without_client. unfold client_of_env.
    destruct H as [-> | ->]; reflexivity.
  - intros Hc Hb.
    destruct (match client with Some c => Some c | None => client_of_env getenv end)
      as [c |] eqn:Ec; [| congruence].
    rewrite (init_with_client _ deployment embedding base index_name key semantic c Ec). unfold or_getenv.
    destruct Hb as [-> | [-> [-> | ->]]]; reflexivity.
  - intros c b -> Hb Hne.
    rewrite (init_with_client (Some c) deployment embedding base index_name key semantic c eq_refl), Hb.
    apply String.eqb_neq in Hne. rewrite Hne. cbv zeta. eauto.
  - split.
    + intros [self H]. apply EasyChatClient_init_ok in H as (c & b & Hc & Hb & Hne & _).
      split; [congruence | eauto].
    + intros [Hc (b & Hb & Hne)].
      destruct (match client with Some c => Some c | None => client_of_env getenv end)
        as [c |] eqn:Ec; [| congruence].
      rewrite (init_with_client _ deployment embedding base index_name key semantic c Ec), Hb.
      apply String.eqb_neq in Hne. rewrite Hne. cbv zeta. eauto.
  - intros e H.
    destruct (match client with Some c => Some c | None => client_of_env getenv end)
      as [c |] eqn:Ec.
    + rewrite (init_with_client _ deployment embedding base index_name key semantic c Ec) in H. right.
      destruct (or_getenv getenv base "AZURESEARCH_API_BASE") as [b |];
        [| now injection H as <-].
      destruct (String.eqb b ""); [now injection H as <- | discriminate].
    + rewrite (init_without_client _ deployment embedding base index_name key semantic Ec) in H. left. now injection H as <-.
Qed.

(** X8: what holds of every client that [__init__] returns: the search
    endpoint, the index name, the two deployment names and the name of
    the semantic configuration are not empty, the filter is empty, and a
    client built from the environment has the endpoint of the
    environment, which is not empty, and the API version "2024-02-01". *)
Theorem init_client_invariant (client : option AzureOpenAI)
  (deployment embedding base index_name key semantic : option string)
  (self : EasyChatClient) :
  (EasyChatClient_init getenv client deployment embedding base index_name key semantic)
      = Ok self ->
  _azure_search_api_base self <> ""
  /\ _azure_search_index_name self <> ""
  /\ _open_ai_deployment_name self <> ""
  /\ _open_ai_embedding_deployment_name self <> ""
  /\ _semantic_configuration self <> ""
  /\ _filter self = ""
  /\ (client = None ->
      Some (azure_endpoint (_open_ai_client self)) = getenv "OPENAI_API_BASE"
      /\ azure_endpoint (_open_ai_client self) <> ""
      /\ api_version (_open_ai_client self) = "2024-02-01").
Proof.
  intros H. apply EasyChatClient_init_ok in H as (c & b & Hc & Hb & Hne & ->).
  cbv zeta. cbn [_azure_search_api_base _azure_search_index_name
                 _open_ai_deployment_name _open_ai_embedding_deployment_name
                 _semantic_configuration _filter _open_ai_client].
  repeat (split;
          [first [ assumption
                 | reflexivity
                 | apply or_default_not_empty; discriminate
                 | apply or_default_not_empty; apply append_not_empty; discriminate ]
          |]).
  intros ->. unfold client_of_env in Hc.
  destruct (getenv "OPENAI_API_BASE") as [b0 |]; [| discriminate].
  destruct (String.eqb_spec b0 ""); [discriminate |]. injection Hc as <-.
  cbn [azure_endpoint api_version]. auto.
Qed.

(** X9: the order in which [__init__] settles the settings: the argument
    first, then the variable of the environment, then the default
    ("gpt-4o", "text-embedding-ada-002", "documents"); an argument ""
    gives the default and the variable is not read.  The name of the
    semantic configuration is the argument, or for [None] and "" the
    index name followed by "-semantic-configuration".  The search key is
    the argument, also when that is "", and for [None] the variable or "".
    The client of the chat service uses the key of the environment when
    that is set, also when it is "", and the token provider otherwise. *)
Theorem init_settings_precedence (client : option AzureOpenAI)
  (deployment embedding base index_name key semantic : option string)
  (self : EasyChatClient) :
  (EasyChatClient_init getenv client deployment embedding base index_name key semantic)
      = Ok self ->
  setting_resolved getenv deployment "OPENAI_DEPLOYMENT_NAME" "gpt-4o"
    (_open_ai_deployment_name self)
  /\ setting_resolved getenv embedding "OPENAI_EMBEDDING_DEPLOYMENT_NAME"
       "text-embedding-ada-002" (_open_ai_embedding_deployment_name self)
  /\ setting_resolved getenv index_name "AZURESEARCH_INDEX_NAME" "documents"
       (_azure_search_index_name self)
  /\ (forall s, semantic = Some s -> s <> "" -> _semantic_configuration self = s)
  /\ (semantic = None \/ semantic = Some "" ->
      _semantic_configuration self
      = (_azure_search_index_name self ++ "-semantic-configuration")%string)
  /\ (forall k, key = Some k -> _azure_search_api_key self = k)
  /\ (key = None ->
      _azure_search_api_key self
      = match getenv "AZURESEARCH_API_KEY" with Some k => k | None => "" end)
  /\ (forall b, base = Some b -> _azure_search_api_base self = b)
  /\ (base = None -> getenv "AZURESEARCH_API_BASE" = Some (_azure_search_api_base self))
  /\ (client = None ->
      azure_credential (_open_ai_client self)
      = match getenv "OPENAI_API_KEY" with
        | Some k => api_key k
        | None => azure_ad_token_provider "https://cognitiveservices.azure.com/.default"
        end).
Proof.
  intros H. apply EasyChatClient_init_ok in H as (c & b & Hc & Hb & Hne & ->).
  cbv zeta. cbn [_azure_search_api_base _azure_search_index_name
                 _open_ai_deployment_name _open_ai_embedding_deployment_name
                 _semantic_configuration _azure_search_api_key _open_ai_client].
  split; [apply or_default_resolved |].
  split; [apply or_default_resolved |].
  split; [apply or_default_resolved |].
  split; [| split; [| split; [| split; [| split; [| split]]]]].
  - intros s -> Hs. unfold or_default. apply String.eqb_neq in Hs. now rewrite Hs.
  - intros [-> | ->]; reflexivity.
  - now intros k ->.
  - now intros ->.
  - intros b' ->. cbn [or_getenv] in Hb. congruence.
  - intros ->. exact Hb.
  - intros ->. unfold client_of_env in Hc.
    destruct (getenv "OPENAI_API_BASE") as [b0 |]; [| discriminate].
    destruct (String.eqb b0 ""); [discriminate |]. now injection Hc as <-.
Qed.

(** X10: the search key that [__init__] settles decides the block
    [authentication] of every request of the client: a key as argument,
    or for the argument [None] a key in the environment, gives the block
    with that key; no key at all, or the argument "", gives the block of
    the managed identity, the latter also when the environment has a
    key. *)
Theorem init_decides_authentication (client : option AzureOpenAI)
  (deployment embedding base index_name key semantic : option string)
  (self : EasyChatClient) (messages : list EasyChatMessage) :
  (EasyChatClient_init getenv client deployment embedding base index_name key semantic)
      = Ok self ->
  let authentication :=
    at_path [K "data_sources"; I 0; K "parameters"; K "authentication"]
            (req_extra_body (chat_request self messages)) in
  (forall k, key = Some k -> k <> "" ->
             authentication = Some (api_key_authentication k))
  /\ (key = Some "" -> authentication = Some managed_identity)
  /\ (forall k, key = None -> getenv "AZURESEARCH_API_KEY" = Some k -> k <> "" ->
                authentication = Some (api_key_authentication k))
  /\ (key = None ->
      getenv "AZURESEARCH_API_KEY" = None \/ getenv "AZURESEARCH_API_KEY" = Some "" ->
      authentication = Some managed_identity).
Proof.
  intros H. apply EasyChatClient_init_ok in H as (c & b & Hc & Hb & Hne & ->).
  cbv zeta.
  assert (Hauth : forall k,
             search_key_of getenv key = k ->
             at_path [K "data_sources"; I 0; K "parameters"; K "authentication"]
               (req_extra_body
                  (chat_request
                     {| _open_ai_client := c;
                        _open_ai_deployment_name :=
                          or_default
                            (or_getenv getenv deployment "OPENAI_DEPLOYMENT_NAME")
                            "gpt-4o";
                        _open_ai_embedding_deployment_name :=
                          or_default
                            (or_getenv getenv embedding
                               "OPENAI_EMBEDDING_DEPLOYMENT_NAME")
                            "text-embedding-ada-002";
                        _azure_search_api_base := b;
                        _azure_search_api_key := search_key_of getenv key;
                        _azure_search_index_name :=
                          or_default
                            (or_getenv getenv index_name "AZURESEARCH_INDEX_NAME")
                            "documents";
                        _semantic_configuration :=
                          or_default semantic
                            (or_default
                               (or_getenv getenv index_name "AZURESEARCH_INDEX_NAME")
                               "documents" ++ "-semantic-configuration");
                        _filter := "" |} messages))
             = Some (if String.eqb k "" then managed_identity
                     else api_key_authentication k)).
  { intros k <-. unfold chat_request, dataSource, dataSource_parameters.
    cbn [req_extra_body at_path dict_get nth_error String.eqb Ascii.eqb Bool.eqb
         _azure_search_api_key _filter negb].
    destruct (String.eqb (search_key_of getenv key) ""); reflexivity. }
  split; [| split; [| split]].
  - intros k -> Hk. rewrite (Hauth k eq_refl).
    apply String.eqb_neq in Hk. now rewrite Hk.
  - intros ->. now rewrite (Hauth "" eq_refl).
  - intros k -> Hg Hk. rewrite (Hauth k); [| cbn [search_key_of]; now rewrite Hg].
    apply String.eqb_neq in Hk. now rewrite Hk.
  - intros -> Hg. rewrite (Hauth ""); [reflexivity |].
    cbn [search_key_of]. destruct Hg as [-> | ->]; reflexivity.
Qed.

End Init.

(* ================================================================== *)
(** * The request of [chat] *)
(* ================================================================== *)

Lemma request_parameter_eq (k : string) (self : EasyChatClient)
  (messages : list EasyChatMessage) :
  request_parameter k (chat_request self messages)
  = dict_get k (dataSource_parameters self).
Proof.
  unfold request_parameter, chat_request, dataSource.
  cbn [req_extra_body at_path dict_get nth_error String.eqb Ascii.eqb Bool.eqb].
  now destruct (dict_get k (dataSource_parameters self)).
Qed.

(** X11: the body that [chat] sends beside the messages: the one key
    "data_sources" with a list of one descriptor of type "azure_search",
    whose parameters have these keys in this order: the endpoint and the
    index of the client, 5 documents, the role information, the two field
    names, the embedding deployment of the client, the query type, the
    semantic configuration of the client, the authentication, and behind
    them the filter when it is not empty.  The model is the deployment of
    the client and the temperature is 0.2. *)
Theorem request_shape (self : EasyChatClient) (messages : list EasyChatMessage) :
  exists parameters,
    req_extra_body (chat_request self messages)
    = PDict [("data_sources",
               PList [PDict [("type", PStr "azure_search");
                             ("parameters", PDict parameters)]])]
    /\ keys parameters
       = parameter_keys ++ (if String.eqb (_filter self) "" then [] else ["filter"])
    /\ dict_get "endpoint" parameters = Some (PStr (_azure_search_api_base self))
    /\ dict_get "index_name" parameters = Some (PStr (_azure_search_index_name self))
    /\ dict_get "top_n_documents" parameters = Some (PInt 5)
    /\ dict_get "role_information" parameters
       = Some (PStr "You must generate citation based on the retrieved information.")
    /\ dict_get "fields_mapping" parameters
       = Some (PDict [("filepath_field", PStr "chunk_id");
                      ("url_field", PStr "metadata_storage_path")])
    /\ dict_get "embedding_dependency" parameters
       = Some (PDict [("type", PStr "deployment_name");
                      ("deployment_name",
                        PStr (_open_ai_embedding_deployment_name self))])
    /\ dict_get "query_type" parameters = Some (PStr "vector_semantic_hybrid")
    /\ dict_get "semantic_configuration" parameters
       = Some (PStr (_semantic_configuration self))
    /\ req_model (chat_request self messages) = _open_ai_deployment_name self
    /\ req_temperature (chat_request self messages) = PFloat "0.2".
Proof.
  exists (dataSource_parameters self).
  unfold chat_request, dataSource, dataSource_parameters, parameter_keys, keys.
  cbn [req_extra_body req_model req_temperature].
  destruct (String.eqb (_azure_search_api_key self) "");
    destruct (String.eqb (_filter self) ""); cbn [negb];
    repeat split; reflexivity.
Qed.

Lemma dataSource_parameters_other (self : EasyChatClient) (filter : string) (k : string) :
  k <> "filter" ->
  dict_get k (dataSource_parameters
                {| _open_ai_client := _open_ai_client self;
                   _open_ai_deployment_name := _open_ai_deployment_name self;
                   _open_ai_embedding_deployment_name :=
                     _open_ai_embedding_deployment_name self;
                   _azure_search_api_base := _azure_search_api_base self;
                   _azure_search_api_key := _azure_search_api_key self;
                   _azure_search_index_name := _azure_search_index_name self;
                   _semantic_configuration := _semantic_configuration self;
                   _filter := filter |})
  = dict_get k (dict_set "authentication"
                  (if String.eqb (_azure_search_api_key self) ""
                   then managed_identity
                   else api_key_authentication (_azure_search_api_key self))
                  [("endpoint", PStr (_azure_search_api_base self));
                   ("index_name", PStr (_azure_search_index_name self));
                   ("top_n_documents", PInt 5);
                   ("role_information",
                     PStr "You must generate citation based on the retrieved information.");
                   ("fields_mapping",
                     PDict [("filepath_field", PStr "chunk_id");
                            ("url_field", PStr "metadata_storage_path")]);
                   ("embedding_dependency",
                     PDict [("type", PStr "deployment_name");
                            ("deployment_name",
                              PStr (_open_ai_embedding_deployment_name self))]);
                   ("query_type", PStr "vector_semantic_hybrid");
                   ("semantic_configuration", PStr (_semantic_configuration self))]).
Proof.
  intros Hk. unfold dataSource_parameters.
  cbn [_azure_search_api_base _azure_search_index_name
       _open_ai_embedding_deployment_name _semantic_configuration
       _azure_search_api_key _filter].
  destruct (negb (String.eqb filter "")).
  - rewrite dict_get_set_other by congruence.
    now destruct (String.eqb (_azure_search_api_key self) "").
  - now destruct (String.eqb (_azure_search_api_key self) "").
Qed.

(** X12: [setSearchFilter] and the request.  Setting a filter changes
    nothing of the request but the parameter "filter", which is then the
    text of the value, or is not there when that text is empty; of two
    filters set one after the other the second counts; and setting the
    filter that [getSearchFilter] returns leaves the client as it is. *)
Theorem setSearchFilter_and_request (self : EasyChatClient) (v : pyval)
  (messages : list EasyChatMessage) :
  (forall k, k <> "filter" ->
             request_parameter k (chat_request (setSearchFilter self v) messages)
             = request_parameter k (chat_request self messages))
  /\ request_parameter "filter" (chat_request (setSearchFilter self v) messages)
     = (if String.eqb (py_str v) "" then None else Some (PStr (py_str v)))
  /\ req_model (chat_request (setSearchFilter self v) messages)
     = req_model (chat_request self messages)
  /\ req_messages (chat_request (setSearchFilter self v) messages)
     = req_messages (chat_request self messages)
  /\ (forall w, setSearchFilter (setSearchFilter self v) w = setSearchFilter self w)
  /\ setSearchFilter self (PStr (getSearchFilter self)) = self.
Proof.
  split; [| split; [| split; [| split; [| split]]]]; try reflexivity.
  - intros k Hk. rewrite !request_parameter_eq. unfold setSearchFilter.
    rewrite (dataSource_parameters_other self (py_str v) k Hk).
    destruct self as [c dn en b ky ix sc f].
    now rewrite <- (dataSource_parameters_other
                      {| _open_ai_client := c; _open_ai_deployment_name := dn;
                         _open_ai_embedding_deployment_name := en;
                         _azure_search_api_base := b; _azure_search_api_key := ky;
                         _azure_search_index_name := ix;
                         _semantic_configuration := sc; _filter := f |} f k Hk).
  - rewrite request_parameter_eq.
    unfold setSearchFilter, dataSource_parameters.
    cbn [_azure_search_api_key _filter py_str].
    destruct (String.eqb (_azure_search_api_key self) "");
      destruct (String.eqb (py_str v) ""); reflexivity.
  - now destruct self.
Qed.

(* ================================================================== *)
(** * The text of a value that is no string *)
(* ================================================================== *)

Lemma string_of_uint_first (d : Decimal.uint) :
  exists c t, NilZero.string_of_uint d = String c t
              /\ PyStr.has_char c first_chars = true.
Proof.
  destruct d; simpl; eexists _, _; split; reflexivity.
Qed.

Lemma str_int_first (z : Z) :
  exists c t, PyStr.str_int z = String c t /\ PyStr.has_char c first_chars = true.
Proof.
  unfold PyStr.str_int, NilZero.string_of_int.
  destruct (Z.to_int z) as [d | d].
  - apply string_of_uint_first.
  - eexists _, _; split; reflexivity.
Qed.

Lemma py_str_first (v : pyval) :
  not_text v = true ->
  exists c t, py_str v = String c t /\ PyStr.has_char c first_chars = true.
Proof.
  destruct v as [| [] | z | | | l | d]; try discriminate; intros _;
    try (eexists _, _; split; reflexivity).
  apply str_int_first.
Qed.

Lemma first_chars_cases (c : ascii) :
  PyStr.has_char c first_chars = true ->
  PyStr.is_space c = false
  /\ Ascii.eqb (PyStr.lower_char c) "s" = false
  /\ Ascii.eqb (PyStr.lower_char c) "u" = false
  /\ Ascii.eqb (PyStr.lower_char c) "a" = false.
Proof.
  unfold first_chars. cbn [PyStr.has_char]. intros H.
  repeat (apply orb_prop in H as [H | H];
          [apply Ascii.eqb_eq in H; subst c; repeat split; reflexivity |]).
  discriminate.
Qed.

Lemma strip_first (c : ascii) (t : string) :
  PyStr.is_space c = false ->
  exists t', PyStr.strip (String c t) = String c t'.
Proof.
  intros Hc. unfold PyStr.strip. cbn [PyStr.lstrip]. rewrite Hc.
  cbn [PyStr.rstrip]. rewrite Hc.
  destruct (PyStr.rstrip t); eauto.
Qed.

Lemma canonical_role_not_text (v : pyval) :
  not_text v = true -> valid_role v = false.
Proof.
  intros Hv. destruct (py_str_first v Hv) as (c & t & Hs & Hc).
  destruct (first_chars_cases c Hc) as (Hsp & H1 & H2 & H3).
  destruct (strip_first c t Hsp) as [t' Ht].
  unfold valid_role, canonical_role. rewrite Hs, Ht.
  cbn [PyStr.lower roles existsb String.eqb].
  now rewrite H1, H2, H3.
Qed.

(** X13: a filter that is no string is not refused and does not clear
    the filter: for [None], a truth value, an integer, a list or a
    dictionary the text that [str] makes of it is never empty, and the
    next request carries it as its filter. *)
Theorem filter_of_a_value_that_is_no_text (self : EasyChatClient) (v : pyval)
  (messages : list EasyChatMessage) :
  not_text v = true ->
  getSearchFilter (setSearchFilter self v) <> ""
  /\ request_parameter "filter" (chat_request (setSearchFilter self v) messages)
     = Some (PStr (py_str v)).
Proof.
  intros Hv. destruct (py_str_first v Hv) as (c & t & Hs & _).
  split.
  - unfold getSearchFilter, setSearchFilter. cbn [_filter]. rewrite Hs. discriminate.
  - rewrite request_parameter_eq.
    unfold setSearchFilter, dataSource_parameters.
    cbn [_azure_search_api_key _filter py_str]. rewrite Hs.
    cbn [String.eqb negb].
    destruct (String.eqb (_azure_search_api_key self) ""); reflexivity.
Qed.

(** X13 at the filter [None], whose text is "None". *)
Lemma filter_of_a_value_that_is_no_text_witness :
  getSearchFilter (setSearchFilter sample_client PNone) <> ""
  /\ request_parameter "filter" (chat_request (setSearchFilter sample_client PNone) [])
     = Some (PStr "None").
Proof.
  exact (filter_of_a_value_that_is_no_text sample_client PNone [] eq_refl).
Defined.

(** X14: a role that is no string is not a type error: it is turned into
    its text, and for [None], a truth value, an integer, a list or a
    dictionary that text is never a role, so the construction raises the
    error of an invalid role. *)
Theorem role_that_is_no_text_is_invalid (v content : pyval) :
  not_text v = true -> EasyChatMessage_init v content = Raise InvalidRole.
Proof.
  intros Hv. rewrite EasyChatMessage_init_eq.
  now rewrite (canonical_role_not_text v Hv).
Qed.

(** X14 at the role [None] and at a role that is a list with a valid
    role in it. *)
Lemma role_that_is_no_text_is_invalid_witness :
  EasyChatMessage_init PNone (PStr "Hello") = Raise InvalidRole
  /\ EasyChatMessage_init (PList [PStr "user"]) (PStr "Hello") = Raise InvalidRole.
Proof.
  split.
  - exact (role_that_is_no_text_is_invalid PNone (PStr "Hello") eq_refl).
  - exact (role_that_is_no_text_is_invalid (PList [PStr "user"]) (PStr "Hello") eq_refl).
Defined.

(** X15: what holds of every message that has been constructed: its
    role is one of "system", "user" and "assistant", its content is the
    argument, and its role is a role as it stands, so that a message
    constructed from the role and the content of a message is that
    message. *)
Theorem message_invariant (r c : pyval) (m : EasyChatMessage) :
  EasyChatMessage_init r c = Ok m ->
  In (role m) roles
  /\ content m = c
  /\ EasyChatMessage_init (PStr (role m)) (content m) = Ok m.
Proof.
  rewrite EasyChatMessage_init_eq.
  destruct (valid_role r) eqn:Hv; [| discriminate].
  intros [= <-]. cbn [role content].
  apply valid_role_In in Hv.
  split; [assumption | split; [reflexivity |]].
  unfold roles in Hv. cbn [In] in Hv.
  destruct Hv as [<- | [<- | [<- | []]]]; reflexivity.
Qed.

(** X15 at the role " UsEr ". *)
Lemma message_invariant_witness :
  In "user" roles
  /\ PStr "Hello" = PStr "Hello"
  /\ EasyChatMessage_init (PStr "user") (PStr "Hello")
     = Ok {| role := "user"; content := PStr "Hello" |}.
Proof.
  exact (message_invariant (PStr " UsEr ") (PStr "Hello")
           {| role := "user"; content := PStr "Hello" |} eq_refl).
Defined.

(* ================================================================== *)
(** * [dict_to_chat_messages]: errors, and the way back *)
(* ================================================================== *)

Lemma dict_to_chat_messages_eq (data : dict) :
  dict_to_chat_messages data
  = match dict_get "messages" data with
    | Some messages =>
        items <- py_iter messages ;; comprehension message_of_entry items
    | None => Ok []
    end.
Proof.
  unfold dict_to_chat_messages, dict_has. cbn [py_getitem].
  now destruct (dict_get "messages" data).
Qed.

Lemma comprehension_first_raise {A B : Type} (f : A -> result B)
  (good : list A) (bad : A) (rest : list A) (e : exn) :
  Forall (fun a => exists b, f a = Ok b) good ->
  f bad = Raise e ->
  comprehension f (good ++ bad :: rest) = Raise e.
Proof.
  intros Hgood Hbad.
  induction Hgood as [| a good [b Hb] _ IH]; cbn [app comprehension].
  - now rewrite Hbad.
  - rewrite Hb. cbn [bind]. now rewrite IH.
Qed.

Lemma comprehension_Forall2 {A B : Type} (f : A -> result B) (l : list A) (l' : list B) :
  comprehension f l = Ok l' -> Forall2 (fun a b => f a = Ok b) l l'.
Proof.
  revert l'.
  induction l as [| a l IH]; intros l'; cbn [comprehension].
  - intros [= <-]. constructor.
  - destruct (f a) as [b |] eqn:Ea; [| discriminate]. cbn [bind].
    destruct (comprehension f l) as [bs |]; [| discriminate]. cbn [bind].
    intros [= <-]. constructor; auto.
Qed.

Lemma message_of_entry_ok (entry : pyval) (m : EasyChatMessage) :
  message_of_entry entry = Ok m ->
  exists r c, entry_fields entry = Some (r, c)
              /\ valid_role r = true
              /\ m = message_of (r, c).
Proof.
  unfold message_of_entry, entry_fields.
  destruct entry as [| | | | | | d]; try discriminate.
  cbn [py_getitem].
  destruct (dict_get "role" d) as [r |]; [| discriminate].
  destruct (dict_get "content" d) as [c |]; [| discriminate].
  cbn [bind]. rewrite EasyChatMessage_init_eq.
  destruct (valid_role r) eqn:Hv; [| discriminate].
  intros [= <-]. exists r, c. auto.
Qed.

(** X16: the errors of [dict_to_chat_messages].  The entries are taken
    in their order and the first one that fails gives the error, whatever
    comes after it.  An entry that is no dictionary gives [TypeError]; one
    without "role" gives [KeyError] for "role"; one with a role and
    without "content" gives [KeyError] for "content", also when the role
    is not valid, because both are read before the message is
    constructed; one with both and a role that is not valid gives the
    error of an invalid role.  A value under "messages" that is [None] or
    a number gives [TypeError], and the empty list gives no message. *)
Theorem dict_to_chat_messages_errors (data : dict) :
  (forall good bad rest e,
      dict_get "messages" data = Some (PList (good ++ bad :: rest)) ->
      Forall (fun entry => exists m, message_of_entry entry = Ok m) good ->
      message_of_entry bad = Raise e ->
      dict_to_chat_messages data = Raise e)
  /\ (forall entry, (forall d, entry <> PDict d) ->
                    message_of_entry entry = Raise TypeError)
  /\ (forall d, dict_get "role" d = None ->
                message_of_entry (PDict d) = Raise (KeyError "role"))
  /\ (forall d r, dict_get "role" d = Some r -> dict_get "content" d = None ->
                  message_of_entry (PDict d) = Raise (KeyError "content"))
  /\ (forall d r c, dict_get "role" d = Some r -> dict_get "content" d = Some c ->
                    valid_role r = false ->
                    message_of_entry (PDict d) = Raise InvalidRole)
  /\ (forall v, dict_get "messages" data = Some v ->
                match v with
                | PNone | PBool _ | PInt _ | PFloat _ => True
                | _ => False
                end ->
                dict_to_chat_messages data = Raise TypeError)
  /\ (dict_get "messages" data = Some (PList []) -> dict_to_chat_messages data = Ok []).
Proof.
  split; [| split; [| split; [| split; [| split; [| split]]]]].
  - intros good bad rest e Hm Hgood Hbad.
    rewrite dict_to_chat_messages_eq, Hm. cbn [py_iter bind].
    now apply comprehension_first_raise.
  - intros entry Hnd. destruct entry; try reflexivity. now elim (Hnd d).
  - intros d Hr. unfold message_of_entry. cbn [py_getitem]. now rewrite Hr.
  - intros d r Hr Hc. unfold message_of_entry. cbn [py_getitem]. now rewrite Hr, Hc.
  - intros d r c Hr Hc Hv. unfold message_of_entry. cbn [py_getitem].
    rewrite Hr, Hc. cbn [bind]. rewrite EasyChatMessage_init_eq. now rewrite Hv.
  - intros v Hm Hv. rewrite dict_to_chat_messages_eq, Hm.
    destruct v; try contradiction; reflexivity.
  - intros Hm. now rewrite dict_to_chat_messages_eq, Hm.
Qed.

(** X16 at a list whose second entry has a role that is not valid and no
    content, and whose third entry is no dictionary. *)
Lemma dict_to_chat_messages_errors_witness :
  dict_to_chat_messages
    [("messages",
       PList [PDict [("role", PStr "user"); ("content", PStr "Hello")];
              PDict [("role", PStr "tool")];
              PNone])]
  = Raise (KeyError "content").
Proof.
  apply (proj1 (dict_to_chat_messages_errors _)
           [PDict [("role", PStr "user"); ("content", PStr "Hello")]]
           (PDict [("role", PStr "tool")]) [PNone]).
  - reflexivity.
  - constructor; [| constructor]. eexists. reflexivity.
  - reflexivity.
Defined.

(** X17: what [dict_to_chat_messages] returns for a list of entries, when
    it returns: one message for each entry and in their order, and each
    entry is a dictionary with a role and a content, the role is valid,
    and the message holds the role in its lower case form and the content
    as it is. *)
Theorem dict_to_chat_messages_returns (data : dict) (entries : list pyval)
  (messages : list EasyChatMessage) :
  dict_get "messages" data = Some (PList entries) ->
  dict_to_chat_messages data = Ok messages ->
  Forall2 (fun entry m =>
             exists r c, entry_fields entry = Some (r, c)
                         /\ valid_role r = true
                         /\ In (role m) roles
                         /\ role m = canonical_role r
                         /\ content m = c)
          entries messages
  /\ List.length messages = List.length entries.
Proof.
  intros Hm H. rewrite dict_to_chat_messages_eq, Hm in H. cbn [py_iter bind] in H.
  apply comprehension_Forall2 in H.
  split; [| symmetry; exact (Forall2_length H)].
  clear Hm.
  induction H as [| entry m entries messages He _ IH]; [constructor |].
  constructor; [| assumption].
  apply message_of_entry_ok in He as (r & c & Hf & Hv & ->).
  exists r, c. cbn [message_of role content fst snd].
  repeat split; try assumption. now apply valid_role_In.
Qed.

(** X17 at the dictionary of the examples. *)
Lemma dict_to_chat_messages_returns_witness :
  List.length [{| role := "system"; content := PStr "Be brief." |};
               {| role := "user"; content := PStr "Hello" |}]
  = List.length
      [PDict [("role", PStr "System"); ("content", PStr "Be brief.")];
       PDict [("role", PStr " user "); ("content", PStr "Hello")]].
Proof.
  exact (proj2 (dict_to_chat_messages_returns sample_messages _ _ eq_refl eq_refl)).
Defined.

(** X18: from the dictionary to the request.  The messages that [chat]
    sends for the messages that [dict_to_chat_messages] has made are the
    entries of the dictionary again: each with the keys "role" and
    "content", the role in its lower case form and the content as it was,
    in the order of the entries; entries that are such dictionaries with a
    role in its lower case form come out as they went in. *)
Theorem messages_from_dict_to_request (self : EasyChatClient) (data : dict)
  (entries : list pyval) (messages : list EasyChatMessage) :
  dict_get "messages" data = Some (PList entries) ->
  dict_to_chat_messages data = Ok messages ->
  Forall2 (fun entry sent =>
             exists r c, entry_fields entry = Some (r, c)
                         /\ sent = request_message (canonical_role r) c)
          entries (req_messages (chat_request self messages))
  /\ (Forall (fun entry => exists r c, entry = request_message r c /\ In r roles)
             entries ->
      req_messages (chat_request self messages) = entries).
Proof.
  intros Hm H. rewrite dict_to_chat_messages_eq, Hm in H. cbn [py_iter bind] in H.
  apply comprehension_Forall2 in H.
  unfold chat_request. cbn [req_messages]. clear Hm.
  induction H as [| entry m entries messages He _ [IH1 IH2]].
  - split; [constructor | reflexivity].
  - apply message_of_entry_ok in He as (r & c & Hf & Hv & ->).
    cbn [map message_of role content fst snd].
    split.
    + constructor; [| assumption]. exists r, c. auto.
    + intros Hall. inversion Hall as [| e es (r' & c' & -> & Hr') Hes]; subst.
      rewrite (IH2 Hes).
      unfold request_message, entry_fields in Hf. cbn [dict_get String.eqb Ascii.eqb
                                                       Bool.eqb] in Hf.
      injection Hf as <- <-.
      unfold request_message. do 3 f_equal.
      unfold roles in Hr'. cbn [In] in Hr'.
      destruct Hr' as [<- | [<- | [<- | []]]]; reflexivity.
Qed.

(** X18 at the dictionary of the examples. *)
Lemma messages_from_dict_to_request_witness :
  req_messages
    (chat_request sample_client
       [{| role := "system"; content := PStr "Be brief." |};
        {| role := "user"; content := PStr "Hello" |}])
  = [request_message "system" (PStr "Be brief.");
     request_message "user" (PStr "Hello")].
Proof.
  exact (proj2 (messages_from_dict_to_request sample_client
                  [("messages", PList [request_message "system" (PStr "Be brief.");
                                       request_message "user" (PStr "Hello")])]
                  _ _ eq_refl eq_refl)
           (Forall_cons _
              (ex_intro _ "system"
                 (ex_intro _ (PStr "Be brief.")
                    (conj eq_refl (or_introl eq_refl))))
              (Forall_cons _
                 (ex_intro _ "user"
                    (ex_intro _ (PStr "Hello")
                       (conj eq_refl (or_intror (or_introl eq_refl)))))
                 (Forall_nil _)))).
Defined.

(* ================================================================== *)
(** * The settings at the data of the examples *)
(* ================================================================== *)

Lemma full_client_built :
  EasyChatClient_init full_getenv None None (Some "embed-3") None (Some "") (Some "")
                      None
  = Ok full_client.
Proof. reflexivity. Qed.

(** X8 at the client of the full environment. *)
Lemma init_client_invariant_witness :
  _azure_search_api_base full_client <> ""
  /\ _azure_search_index_name full_client <> ""
  /\ _open_ai_deployment_name full_client <> ""
  /\ _open_ai_embedding_deployment_name full_client <> ""
  /\ _semantic_configuration full_client <> ""
  /\ _filter full_client = ""
  /\ (@None AzureOpenAI = None ->
      Some (azure_endpoint (_open_ai_client full_client)) = full_getenv "OPENAI_API_BASE"
      /\ azure_endpoint (_open_ai_client full_client) <> ""
      /\ api_version (_open_ai_client full_client) = "2024-02-01").
Proof.
  exact (init_client_invariant full_getenv None None (Some "embed-3") None (Some "")
           (Some "") None full_client eq_refl).
Defined.

(** X9 at the client of the full environment: the deployment comes from
    the environment, the embedding deployment from the argument, and the
    index name "" gives "documents" although the environment names an
    index. *)
Lemma init_settings_precedence_witness :
  _open_ai_deployment_name full_client = "gpt-4o-mini"
  /\ _open_ai_embedding_deployment_name full_client = "embed-3"
  /\ _azure_search_index_name full_client = "documents"
  /\ _azure_search_api_key full_client = "".
Proof.
  destruct (init_settings_precedence full_getenv None None (Some "embed-3") None
              (Some "") (Some "") None full_client eq_refl)
    as (Hd & He & Hi & _ & _ & Hk & _).
  destruct Hd as (_ & _ & Hd & _).
  destruct He as (He & _).
  destruct Hi as (_ & Hi & _).
  split; [| split; [| split]].
  - apply (Hd "gpt-4o-mini"); [reflexivity | reflexivity | discriminate].
  - apply (He "embed-3"); [reflexivity | discriminate].
  - apply Hi. reflexivity.
  - apply (Hk ""). reflexivity.
Defined.

(** X10 at the client of the full environment: the search key "" as
    argument gives the managed identity although the environment has a
    key. *)
Lemma init_decides_authentication_witness :
  at_path [K "data_sources"; I 0; K "parameters"; K "authentication"]
          (req_extra_body (chat_request full_client []))
  = Some managed_identity.
Proof.
  exact (proj1 (proj2 (init_decides_authentication full_getenv None None
                         (Some "embed-3") None (Some "") (Some "") None
                         full_client [] eq_refl))
           eq_refl).
Defined.

(* ================================================================== *)
(** * [chat]: what it returns and what it raises *)
(* ================================================================== *)

Section ChatFacts.

Variable json_loads : string -> option pyval.
Variable create : AzureOpenAI -> Request -> result OpenAI.ChatCompletion.

Lemma get_json_serializable_data_raises (completion : OpenAI.ChatCompletion) (e : exn) :
  get_json_serializable_data json_loads completion = Raise e ->
  e = AttributeError \/ e = TypeError.
Proof.
  rewrite get_json_serializable_data_eq.
  destruct (OpenAI.usage completion) as [u |]; cbn [OpenAI.attr bind].
  2: { intros [= <-]. now left. }
  destruct (comprehension (choice_entry json_loads) (OpenAI.choices completion))
    as [entries |] eqn:He; [discriminate |].
  cbn [bind]. intros [= <-].
  apply comprehension_raise in He as (choice & _ & Hc).
  now apply choice_entry_raises in Hc.
Qed.

(** X19: [chat] calls the transport once, with the client of the chat
    service and the request, and does nothing to what the transport
    raises: that exception is the exception of [chat].  [chat] returns
    exactly when the transport returns a completion that the normaliser
    takes; every other exception of [chat] is an [AttributeError] or a
    [TypeError] of the normaliser.  The client is afterwards as it
    was. *)
Theorem chat_returns_iff (self : EasyChatClient) (messages : list EasyChatMessage) :
  let response := create (_open_ai_client self) (chat_request self messages) in
  (forall e, response = Raise e ->
             fst (chat json_loads create self messages) = Raise e)
  /\ ((exists data, fst (chat json_loads create self messages) = Ok data)
      <-> exists completion, response = Ok completion /\ accepted completion = true)
  /\ (forall e, fst (chat json_loads create self messages) = Raise e ->
                response = Raise e \/ e = AttributeError \/ e = TypeError)
  /\ snd (chat json_loads create self messages) = self.
Proof.
  cbv zeta. unfold chat. cbn [fst snd].
  destruct (create (_open_ai_client self) (chat_request self messages))
    as [completion | e0]; cbn [bind].
  - split; [discriminate |]. split; [| split; [| reflexivity]].
    + rewrite get_json_serializable_data_accepted. split.
      * intros H. exists completion. auto.
      * intros (c & [= <-] & H). exact H.
    + intros e H. right. now apply get_json_serializable_data_raises in H.
  - split; [now intros e [= ->] |]. split; [| split; [| reflexivity]].
    + split; [intros [? H]; discriminate | intros (c & H & _); discriminate].
    + intros e [= ->]. now left.
Qed.

End ChatFacts.

(* ================================================================== *)
(** * What the normaliser copies *)
(* ================================================================== *)

Section Copies.

Variable json_loads : string -> option pyval.

Lemma comprehension_length {A B : Type} (f : A -> result B) (l : list A) (l' : list B) :
  comprehension f l = Ok l' -> List.length l' = List.length l.
Proof.
  intros H. apply comprehension_Forall2 in H. symmetry. exact (Forall2_length H).
Qed.

Lemma choice_entry_fields (choice : OpenAI.Choice) (entry : pyval) :
  choice_entry json_loads choice = Ok entry ->
  at_path [K "finish_reason"] entry = Some (OpenAI.finish_reason choice)
  /\ at_path [K "index"] entry = Some (OpenAI.index choice)
  /\ at_path [K "message"; K "refusal"] entry
     = Some (OpenAI.refusal (OpenAI.message choice))
  /\ at_path [K "message"; K "role"] entry = Some (OpenAI.role (OpenAI.message choice))
  /\ at_path [K "message"; K "content"] entry
     = Some (OpenAI.content (OpenAI.message choice))
  /\ at_path [K "message"; K "end_turn"] entry
     = OpenAI.end_turn (OpenAI.message choice).
Proof.
  rewrite choice_entry_steps.
  destruct (OpenAI.end_turn (OpenAI.message choice)) as [et |]; cbn [OpenAI.attr bind];
    [| discriminate].
  destruct (OpenAI.context (OpenAI.message choice)) as [ctx |]; cbn [OpenAI.attr bind];
    [| discriminate].
  destruct (ctx1 <- parse_intent json_loads ctx ;; parse_citations ctx1) as [ctx' |];
    cbn [bind]; [| discriminate].
  intros [= <-]. repeat split; reflexivity.
Qed.

(** X20: whenever the normaliser returns, the result has the keys
    "choices", "created", "id", "model", "object", "system_fingerprint"
    and "usage" in this order; the five fields and the three counters of
    the usage are those of the completion; there is one entry for each
    choice, in the order of the choices, and none beyond; and the entry of
    a choice has its finish reason, its index, and the refusal, role,
    content and [end_turn] of its message as they were. *)
Theorem normalizer_copies_fields (completion : OpenAI.ChatCompletion) (data : pyval) :
  get_json_serializable_data json_loads completion = Ok data ->
  (exists d, data = PDict d
             /\ keys d = ["choices"; "created"; "id"; "model"; "object";
                          "system_fingerprint"; "usage"])
  /\ at_path [K "created"] data = Some (OpenAI.created completion)
  /\ at_path [K "id"] data = Some (OpenAI.id completion)
  /\ at_path [K "model"] data = Some (OpenAI.model completion)
  /\ at_path [K "object"] data = Some (OpenAI.object completion)
  /\ at_path [K "system_fingerprint"] data = Some (OpenAI.system_fingerprint completion)
  /\ (exists u, OpenAI.usage completion = Some u
                /\ at_path [K "usage"] data
                   = Some (PDict [("completion_tokens", OpenAI.completion_tokens u);
                                  ("prompt_tokens", OpenAI.prompt_tokens u);
                                  ("total_tokens", OpenAI.total_tokens u)]))
  /\ (exists entries, at_path [K "choices"] data = Some (PList entries)
                      /\ List.length entries = List.length (OpenAI.choices completion))
  /\ (forall i choice,
         nth_error (OpenAI.choices completion) i = Some choice ->
         at_path [K "choices"; I i; K "finish_reason"] data
         = Some (OpenAI.finish_reason choice)
         /\ at_path [K "choices"; I i; K "index"] data = Some (OpenAI.index choice)
         /\ at_path [K "choices"; I i; K "message"; K "refusal"] data
            = Some (OpenAI.refusal (OpenAI.message choice))
         /\ at_path [K "choices"; I i; K "message"; K "role"] data
            = Some (OpenAI.role (OpenAI.message choice))
         /\ at_path [K "choices"; I i; K "message"; K "content"] data
            = Some (OpenAI.content (OpenAI.message choice))
         /\ at_path [K "choices"; I i; K "message"; K "end_turn"] data
            = OpenAI.end_turn (OpenAI.message choice)).
Proof.
  rewrite get_json_serializable_data_eq.
  destruct (OpenAI.usage completion) as [u |]; cbn [OpenAI.attr bind]; [| discriminate].
  destruct (comprehension (choice_entry json_loads) (OpenAI.choices completion))
    as [entries |] eqn:He; cbn [bind]; [| discriminate].
  intros [= <-]. unfold data_of.
  split; [eexists; split; reflexivity |].
  do 5 (split; [reflexivity |]).
  split; [exists u; split; reflexivity |].
  split.
  { exists entries. split; [reflexivity |]. exact (comprehension_length _ _ _ He). }
  intros i choice Hn.
  destruct (comprehension_nth json_loads _ _ _ _ He Hn) as (entry & Hentry & Hce).
  pose proof (choice_entry_fields choice entry Hce) as (H1 & H2 & H3 & H4 & H5 & H6).
  assert (Hat : at_path [K "choices"; I i]
                  (PDict [("choices", PList entries);
                          ("created", OpenAI.created completion);
                          ("id", OpenAI.id completion);
                          ("model", OpenAI.model completion);
                          ("object", OpenAI.object completion);
                          ("system_fingerprint", OpenAI.system_fingerprint completion);
                          ("usage",
                            PDict [("completion_tokens", OpenAI.completion_tokens u);
                                   ("prompt_tokens", OpenAI.prompt_tokens u);
                                   ("total_tokens", OpenAI.total_tokens u)])])
                = Some entry).
  { cbn [at_path dict_get String.eqb Ascii.eqb Bool.eqb]. now rewrite Hentry. }
  repeat split.
  - exact (eq_trans (at_path_app [K "choices"; I i] [K "finish_reason"] _ _ Hat) H1).
  - exact (eq_trans (at_path_app [K "choices"; I i] [K "index"] _ _ Hat) H2).
  - exact (eq_trans (at_path_app [K "choices"; I i] [K "message"; K "refusal"] _ _ Hat) H3).
  - exact (eq_trans (at_path_app [K "choices"; I i] [K "message"; K "role"] _ _ Hat) H4).
  - exact (eq_trans (at_path_app [K "choices"; I i] [K "message"; K "content"] _ _ Hat) H5).
  - exact (eq_trans (at_path_app [K "choices"; I i] [K "message"; K "end_turn"] _ _ Hat) H6).
Qed.

Lemma keys_intent_parsed (d : dict) : keys (intent_parsed json_loads d) = keys d.
Proof.
  unfold intent_parsed.
  destruct (dict_get "intent" d) as [v |] eqn:Hi; [| reflexivity].
  destruct v; try reflexivity.
  destruct (json_loads s); [| reflexivity].
  rewrite keys_dict_set. unfold dict_has. now rewrite Hi.
Qed.

Lemma keys_citations_parsed (d : dict) : keys (citations_parsed d) = keys d.
Proof.
  unfold citations_parsed.
  destruct (dict_get "citations" d) as [v |] eqn:Hc; [| reflexivity].
  destruct v; try reflexivity.
  rewrite keys_dict_set. unfold dict_has. now rewrite Hc.
Qed.

(** X21: what the normaliser does to a context that is a dictionary: the
    keys stay the same and in their order; every field but "intent" and
    "citations" keeps its value; a list of citations becomes the list of
    the parsed citations, as long as it was and in its order; and
    citations that are no list stay as they are. *)
Theorem normalizer_keeps_context (completion : OpenAI.ChatCompletion) (i : nat)
  (choice : OpenAI.Choice) (d : dict) :
  has_contexts completion = true ->
  nth_error (OpenAI.choices completion) i = Some choice ->
  OpenAI.context (OpenAI.message choice) = Some (PDict d) ->
  exists data d',
    get_json_serializable_data json_loads completion = Ok data
    /\ at_path [K "choices"; I i; K "message"; K "context"] data = Some (PDict d')
    /\ keys d' = keys d
    /\ (forall k, k <> "intent" -> k <> "citations" -> dict_get k d' = dict_get k d)
    /\ (forall citations,
           dict_get "citations" d = Some (PList citations) ->
           dict_get "citations" d' = Some (PList (map parse_citation citations)))
    /\ (forall v, dict_get "citations" d = Some v -> isinstance_list v = false ->
                  dict_get "citations" d' = Some v).
Proof.
  intros Hw Hn Hc.
  destruct (context_in_result json_loads _ _ _ _ Hw Hn Hc) as (data & Hdata & Hat).
  exists data, (citations_parsed (intent_parsed json_loads d)).
  split; [assumption |]. split; [assumption |].
  split; [now rewrite keys_citations_parsed, keys_intent_parsed |].
  split; [| split].
  - intros k Hi Hc'.
    rewrite citations_parsed_other by assumption.
    now apply intent_parsed_other.
  - intros citations Hcit. unfold citations_parsed.
    rewrite intent_parsed_other by discriminate. rewrite Hcit.
    apply dict_get_set_same.
  - intros v Hv Hl. unfold citations_parsed.
    rewrite intent_parsed_other by discriminate. rewrite Hv.
    destruct v; try (rewrite intent_parsed_other by discriminate; exact Hv).
    discriminate Hl.
Qed.

End Copies.

(** X20 at the completion of the examples. *)
Lemma normalizer_copies_fields_witness :
  at_path [K "created"]
    (data_of (sample_completion (Some (PDict sample_context)))
       {| OpenAI.completion_tokens := PInt 7;
          OpenAI.prompt_tokens := PInt 11;
          OpenAI.total_tokens := PInt 18 |}
       [entry_of json_literals (sample_choice (Some (PDict sample_context)))
          (PBool true) sample_context])
  = Some (PInt 1700000000).
Proof.
  exact (proj1 (proj2 (normalizer_copies_fields json_literals
                         (sample_completion (Some (PDict sample_context))) _ eq_refl))).
Defined.

(** X21 at the context of the examples, which has five citations. *)
Lemma normalizer_keeps_context_witness :
  exists data d',
    get_json_serializable_data json_literals
      (sample_completion (Some (PDict sample_context))) = Ok data
    /\ at_path [K "choices"; I 0; K "message"; K "context"] data = Some (PDict d')
    /\ keys d' = ["intent"; "citations"].
Proof.
  destruct (normalizer_keeps_context json_literals
              (sample_completion (Some (PDict sample_context))) 0
              (sample_choice (Some (PDict sample_context))) sample_context
              eq_refl eq_refl eq_refl) as (data & d' & H1 & H2 & H3 & _).
  exists data, d'. auto.
Defined.
